(** * tick_db: the HDF5 ingestion script [ingest_HDF5.py]

    A shallow embedding of the script that reads tick data out of HDF5
    files and bulk-loads it into PostgreSQL, and the properties of it
    that the specification states.

    Conventions of the embedding.
    - A Python [str] is a Rocq [string]; text is held by its UTF-8
      encoding, so [bytes] and [str] share the carrier and decoding is
      validation.
    - Python exceptions are the [Raise] results of an error monad.
    - numpy arrays are lists; a slice [a[start:end]] is [slice a start end].
    - A [float] is an IEEE binary64 number (Rocq's primitive floats).
    - An SQL statement is built by [str.format]: it is modelled by the
      meaning of the statement that the text denotes when the values put
      between quotes hold no quote character, and raises otherwise;
      [LIKE] keeps its pattern language. What the server answers to a
      bulk load is left to the host.
    - The sequences of the store are not transactional: another
      connection sees them as they are, and the rows as of the last
      commit.
    - Module-level variables that a function reads ([product_id], [cur],
      [conn], [h5], [group], [table]) are passed to it. *)

From Stdlib Require Import ZArith Lia PrimFloat SpecFloat FloatOps.
From Stdlib Require Import Ascii String.
From Stdlib Require DecimalString.
From stdpp Require Import base option list numbers strings gmap.

#[local] Open Scope string_scope.
#[local] Open Scope Z_scope.

(** ** The Python runtime *)

Module Py.

(** The exception classes the script can meet. [UnicodeDecodeError] is a
    subclass of [ValueError] and [UnboundLocalError] of [NameError];
    [OSError] is what [h5py.File] raises for a file it cannot read,
    [SyntaxError] is psycopg2's, for a statement the server cannot parse,
    and [DataError] and [IntegrityError] are psycopg2's too, for rows the
    server does not take. *)
Inductive exn : Type :=
| KeyError
| ValueError
| UnicodeDecodeError
| UnboundLocalError
| TypeError
| OverflowError
| OSError
| SyntaxError
| DataError
| IntegrityError.

(** [except ValueError:] catches the class and its subclasses. *)
Definition is_ValueError (e : exn) : bool :=
  match e with
  | ValueError | UnicodeDecodeError => true
  | _ => false
  end.

Inductive result (A : Type) : Type :=
| Ok (a : A)
| Raise (e : exn).
Arguments Ok {A} a.
Arguments Raise {A} e.

#[export] Instance result_ret : MRet result := fun A a => Ok a.
#[export] Instance result_bind : MBind result := fun A B k r =>
  match r with
  | Ok a => k a
  | Raise e => Raise e
  end.

(** [try: body / except ValueError: handler]. *)
Definition try_except_ValueError {A} (body handler : result A) : result A :=
  match body with
  | Raise e => if is_ValueError e then handler else Raise e
  | Ok a => Ok a
  end.

(** [d[k]] on a dict. *)
Definition getitem {V} (d : gmap string V) (k : string) : result V :=
  match d !! k with
  | Some v => Ok v
  | None => Raise KeyError
  end.

(** [str(n)] for an integer. *)
Definition str_int (z : Z) : string :=
  DecimalString.NilZero.string_of_int (Z.to_int z).

(** The line feed character, as a string. *)
Definition newline : string := String "010" EmptyString.

(** [sep.join(l)]. *)
Definition join (sep : string) (l : list string) : string := String.concat sep l.

(** [s[n:]] for [0 <= n]. *)
Fixpoint drop_chars (n : nat) (s : string) : string :=
  match n, s with
  | O, _ => s
  | S _, EmptyString => EmptyString
  | S n', String _ s' => drop_chars n' s'
  end.

(** [s.startswith(p)]. *)
Definition startswith (s p : string) : bool := String.prefix p s.

(** [s.endswith(p)]. *)
Definition endswith (s p : string) : bool :=
  String.prefix (String.rev p) (String.rev s).

(** [needle in hay] on strings. *)
Fixpoint contains (needle hay : string) : bool :=
  String.prefix needle hay ||
  match hay with
  | EmptyString => false
  | String _ hay' => contains needle hay'
  end.

(** [s.split(sep)] for a separator of one character. *)
Fixpoint split (sep : Ascii.ascii) (s : string) : list string :=
  match s with
  | EmptyString => [EmptyString]
  | String c s' =>
      if Ascii.eqb c sep then EmptyString :: split sep s'
      else match split sep s' with
           | w :: ws => String c w :: ws
           | [] => [String c EmptyString]
           end
  end.

(** [a, b = l]. *)
Definition unpack2 {A} (l : list A) : result (A * A) :=
  match l with
  | [a; b] => Ok (a, b)
  | _ => Raise ValueError
  end.

(** [range(n)]. *)
Definition range (n : Z) : list Z := seqZ 0 n.

(** [c in s] for a character. *)
Fixpoint occurs (c : ascii) (s : string) : bool :=
  match s with
  | EmptyString => false
  | String c' s' => Ascii.eqb c' c || occurs c s'
  end.

(** [round(num / den)] for [0 < den], the quotient taken exactly: Python 3
    rounds a half to the even neighbour. *)
Definition round_half_even (num den : Z) : Z :=
  let q := num `div` den in
  let r := num `mod` den in
  if 2 * r <? den then q
  else if den <? 2 * r then q + 1
  else if Z.even q then q else q + 1.

(** [float(n)] for an integer, rounded to the nearest binary64 number. *)
Definition float_of_int (z : Z) : float :=
  SF2Prim (binary_normalize prec emax z 0 false).

(** [a[start:end]] for [0 <= start]; the slice stops at the end of [a]. *)
Definition slice {A} (a : list A) (start end_ : Z) : list A :=
  take (Z.to_nat (end_ - start)) (drop (Z.to_nat start) a).

(** [len(a)]. *)
Definition len {A} (a : list A) : Z := Z.of_nat (length a).

End Py.
Export Py.

(** ** numpy *)

Module Np.

(** The code of a byte. *)
Definition byte (c : ascii) : Z := Z.of_N (N_of_ascii c).

Definition between (lo hi : Z) (c : ascii) : bool :=
  (lo <=? byte c) && (byte c <=? hi).

(** Whether a byte string is well-formed UTF-8 (no overlong form, no
    surrogate, nothing above U+10FFFF): what the strict decoder accepts. *)
Fixpoint utf8_valid (s : string) : bool :=
  match s with
  | EmptyString => true
  | String c0 s1 =>
      if byte c0 <? 0x80 then utf8_valid s1
      else if between 0xC2 0xDF c0 then
        match s1 with
        | String c1 s2 => between 0x80 0xBF c1 && utf8_valid s2
        | _ => false
        end
      else if between 0xE0 0xEF c0 then
        match s1 with
        | String c1 (String c2 s3) =>
            (if byte c0 =? 0xE0 then between 0xA0 0xBF c1
             else if byte c0 =? 0xED then between 0x80 0x9F c1
             else between 0x80 0xBF c1)
            && between 0x80 0xBF c2 && utf8_valid s3
        | _ => false
        end
      else if between 0xF0 0xF4 c0 then
        match s1 with
        | String c1 (String c2 (String c3 s4)) =>
            (if byte c0 =? 0xF0 then between 0x90 0xBF c1
             else if byte c0 =? 0xF4 then between 0x80 0x8F c1
             else between 0x80 0xBF c1)
            && between 0x80 0xBF c2 && between 0x80 0xBF c3 && utf8_valid s4
        | _ => false
        end
      else false
  end.

(** [b.decode('UTF-8')] for one element. *)
Definition decode (b : string) : result string :=
  if utf8_valid b then Ok b else Raise UnicodeDecodeError.

(** [np.char.decode(a.astype(np.bytes_), 'UTF-8')] on a column of byte
    strings: elementwise, and the first element that fails raises. *)
Definition char_decode (a : list string) : result (list string) := mapM decode a.

(** An element of an array, as [str] sees it. *)
Inductive value : Type :=
| VInt (z : Z)
| VFloat (f : float)
| VStr (s : string).

(** [np.full(n, x)] for [0 <= n]. *)
Definition full (n : Z) (x : value) : list value := replicate (Z.to_nat n) x.

(** [np.vectorize(f)(a)]: elementwise; without [otypes] it refuses an
    input of size 0. *)
Definition vectorize {A B} (f : A -> result B) (a : list A) : result (list B) :=
  match a with
  | [] => Raise ValueError
  | _ => mapM f a
  end.

(** What a local variable of [assemble_data_as_string] holds: the
    integer it was initialised with, or an array. *)
Inductive pyobj : Type :=
| PInt (z : Z)
| PArray (a : list value).

(** [iter(o)], as [zip] calls it on each argument. *)
Definition iter (o : pyobj) : result (list value) :=
  match o with
  | PArray a => Ok a
  | PInt _ => Raise TypeError
  end.

End Np.
Export Np.

(** ** The HDF5 files *)

Module Hdf5.

(** Modelled from the spec: the element types of the columns of a
    dataset (the program that writes the files is not among the sources):
    raw text bytes for identifiers and enums, integers scaled by 10^8 for
    sizes, integer microseconds for time; a price is a number, kept here
    as the file stores it (an integer or a float). This is one element of
    a compound dataset; a field that the dataset's type does not name is
    never read. *)
Record record : Type := {
  side : string;
  time : Z;
  price : value;
  size : Z;
  maker_order_id : string;
  taker_order_id : string;
  remaining_size : Z;
  order_id : string;
  old_size : Z;
  new_size : Z;
  reason : string;
  order_type : string
}.

(** A dataset: the field names of its compound type, and its elements. *)
Record dataset : Type := {
  dtype : list string;
  rows : list record
}.

(** [ds[name]]: the whole column, or [ValueError] when the compound type
    has no such field. *)
Definition field {A} (ds : dataset) (name : string) (proj : record -> A) : result (list A) :=
  if bool_decide (name ∈ dtype ds) then Ok (proj <$> rows ds) else Raise ValueError.

(** A file: its groups in the order [h5.keys()] lists them, each with its
    tables in iteration order. *)
Definition h5file : Type := list (string * list (string * dataset)).

Fixpoint assoc {V} (k : string) (l : list (string * V)) : option V :=
  match l with
  | [] => None
  | (k', v) :: l' => if String.eqb k' k then Some v else assoc k l'
  end.

(** [h5[group + '/' + table]]. *)
Definition h5_getitem (h5 : h5file) (group table : string) : result dataset :=
  match assoc group h5 ≫= assoc table with
  | Some ds => Ok ds
  | None => Raise KeyError
  end.

End Hdf5.
Export Hdf5.

(** ** The PostgreSQL store *)

Module Sql.

(** [text LIKE pattern], characters taken one byte each: [%] matches any
    run of characters, [_] any one character, and a backslash makes the
    character after it literal. (PostgreSQL rejects a pattern that ends
    in a lone backslash; the script's patterns end in [.h5].) *)
Fixpoint like (pattern : string) : string -> bool :=
  match pattern with
  | EmptyString => fun text =>
      match text with
      | EmptyString => true
      | String _ _ => false
      end
  | String p pattern' =>
      if Ascii.eqb p "%" then
        fix any (text : string) : bool :=
          like pattern' text ||
          match text with
          | EmptyString => false
          | String _ text' => any text'
          end
      else if Ascii.eqb p "_" then fun text =>
        match text with
        | EmptyString => false
        | String _ text' => like pattern' text'
        end
      else if Ascii.eqb p "\" then
        match pattern' with
        | EmptyString => fun _ => false
        | String q pattern'' => fun text =>
            match text with
            | EmptyString => false
            | String c text' => Ascii.eqb c q && like pattern'' text'
            end
        end
      else fun text =>
        match text with
        | EmptyString => false
        | String c text' => Ascii.eqb c p && like pattern' text'
        end
  end.

Record product_row : Type := {
  p_unique_id : Z;
  p_symbol : string;
  p_currency : string;
  p_name : string;
  p_exchange : string
}.

Record file_log_row : Type := {
  f_unique_id : Z;
  f_filename : string;
  f_time : string
}.

(** One call of [copy_expert]: the COPY statement and the text of the
    file-like object handed to it. *)
Record copy_call : Type := {
  cc_sql : string;
  cc_file : string
}.

(** Modelled from the spec: the declarations of the tables [product] and
    [file_log] ([create_tables.sql] is not among the sources): [unique_id]
    is a serial primary key, [product] has a uniqueness constraint on
    (symbol, currency, exchange), and a ledger row is (identifier,
    filename, timestamp). These are the tables as one connection sees
    them; the fact tables are kept as the bulk loads they received, in
    order. *)
Record database : Type := {
  product : list product_row;
  product_seq : Z;
  file_log : list file_log_row;
  file_log_seq : Z;
  copied : list copy_call
}.

Definition same_key (symbol currency exchange : string) (r : product_row) : bool :=
  String.eqb (p_symbol r) symbol && String.eqb (p_currency r) currency
  && String.eqb (p_exchange r) exchange.

(** [INSERT INTO product (unique_id, symbol, currency, name, exchange)
    VALUES (DEFAULT, ...) ON CONFLICT DO NOTHING], for values that the
    statement holds as written: the sequence is stepped, and the row is
    dropped when it collides on the key or on the triple. *)
Definition insert_product (symbol currency name exchange : string) (db : database) : database :=
  let id := product_seq db in
  let conflict :=
    existsb (fun r => (p_unique_id r =? id) || same_key symbol currency exchange r) (product db) in
  {| product :=
       if conflict then product db
       else product db ++ [{| p_unique_id := id; p_symbol := symbol; p_currency := currency;
                              p_name := name; p_exchange := exchange |}];
     product_seq := id + 1;
     file_log := file_log db;
     file_log_seq := file_log_seq db;
     copied := copied db |}.

(** [SELECT unique_id, symbol, currency, name, exchange FROM product
    WHERE symbol = .. AND currency = .. AND exchange = ..] and [fetchone()],
    for values that the statement holds as written. *)
Definition select_product (symbol currency exchange : string) (db : database) : option product_row :=
  List.find (same_key symbol currency exchange) (product db).

(** [INSERT INTO file_log (unique_id, filename, time) VALUES (DEFAULT, .., ..)]. *)
Definition insert_file_log (filename time : string) (db : database) : database :=
  {| product := product db;
     product_seq := product_seq db;
     file_log := file_log db ++ [{| f_unique_id := file_log_seq db; f_filename := filename;
                                    f_time := time |}];
     file_log_seq := file_log_seq db + 1;
     copied := copied db |}.

(** [SELECT filename, time FROM file_log WHERE filename LIKE '%name'] and
    [fetchone()], for a [name] that the statement holds as written. *)
Definition select_file_log (name : string) (db : database) : option file_log_row :=
  List.find (fun r => like (String "%" name) (f_filename r)) (file_log db).

(** The tables after a COPY that the server took. *)
Definition copy_rows (sql sio : string) (db : database) : database :=
  {| product := product db;
     product_seq := product_seq db;
     file_log := file_log db;
     file_log_seq := file_log_seq db;
     copied := copied db ++ [{| cc_sql := sql; cc_file := sio |}] |}.

(** ['{}'.format(v)] inside a statement: the literal of [v]. A quote
    character in [v] ends the literal early and leaves the rest of [v] to
    be read as SQL, which the server rejects, unless the rest happens to
    be SQL (a doubled quote, an operator between two literals). The
    model takes the statement to be rejected; the properties below that
    rest on a statement are stated for values without a quote character,
    or for runs that return. *)
Definition literal (v : string) : result string :=
  if occurs "'" v then Raise SyntaxError else Ok v.

(** The rows of [rows] with the sequences of [seqs]. *)
Definition with_sequences (seqs rows : database) : database :=
  {| product := product rows;
     product_seq := product_seq seqs;
     file_log := file_log rows;
     file_log_seq := file_log_seq seqs;
     copied := copied rows |}.

End Sql.
Export Sql.

(** What the interpreter, its host and the server decide: the text [str]
    gives a float; the text of [datetime.fromtimestamp(t)] in the local
    time zone, which raises for a [t] out of the platform's range; and
    what the server answers to a COPY statement and its text on the
    tables as they are: nothing when it takes the rows, the exception
    that psycopg2 raises when it does not (a line with a field too many,
    a value that is not of the column's type, a constraint of the
    table). *)
Record runtime : Type := {
  str_float : float -> string;
  datetime_str : float -> result string;
  copy_error : database -> string -> string -> option exn
}.

(** [str(x)] for an element of an array. *)
Definition str (rt : runtime) (x : value) : string :=
  match x with
  | VInt z => str_int z
  | VFloat f => str_float rt f
  | VStr s => s
  end.

(** ** The script *)

Module Ingest.

Definition db_table_columns : gmap string (list string) :=
  list_to_map
    [("match", ["unique_id"; "product_id"; "side"; "time"; "price"; "size"; "maker_order_id";
                "taker_order_id"]);
     ("open", ["unique_id"; "product_id"; "side"; "time"; "price"; "remaining_size"; "order_id"]);
     ("change", ["unique_id"; "product_id"; "side"; "time"; "price"; "old_size"; "new_size";
                 "order_id"]);
     ("done", ["unique_id"; "product_id"; "side"; "time"; "price"; "remaining_size"; "reason";
               "order_id"]);
     ("received", ["unique_id"; "order_id"; "order_type"; "side"])].

(** [divide(a, b)] for integers [a] and [b]. *)
Definition divide (a b : Z) : float :=
  if b =? 0 then 0%float
  else (float_of_int a / float_of_int b)%float.

(** [zip(a, *rest)]: rows are produced until one argument is exhausted. *)
Fixpoint zip_rows {A} (a : list A) (rest : list (list A)) : list (list A) :=
  match a with
  | [] => []
  | x :: a' =>
      match mapM head rest with
      | Some xs => (x :: xs) :: zip_rows a' (tail <$> rest)
      | None => []
      end
  end.

(** [zip] applied to the arrays of a list (the starred call); [zip()] is empty. *)
Definition zip_star {A} (arrays : list (list A)) : list (list A) :=
  match arrays with
  | [] => []
  | a :: rest => zip_rows a rest
  end.

(** The local variables of [assemble_data_as_string]; a name that was
    never assigned is unbound. *)
Definition locals : Type := string -> option pyobj.

Definition assign (name : string) (v : pyobj) (loc : locals) : locals :=
  fun k => if String.eqb k name then Some v else loc k.

Definition load (loc : locals) (name : string) : result pyobj :=
  match loc name with
  | Some v => Ok v
  | None => Raise UnboundLocalError
  end.

(** Lines 61-62: eight of the arrays start as the integer 0. *)
Definition initial_locals : locals :=
  assign "size_array" (PInt 0)
    (assign "maker_order_id_array" (PInt 0)
       (assign "taker_order_id_array" (PInt 0)
          (assign "remaining_size_array" (PInt 0)
             (assign "order_id_array" (PInt 0)
                (assign "old_size_array" (PInt 0)
                   (assign "new_size_array" (PInt 0)
                      (assign "reason_array" (PInt 0) (fun _ => None)))))))).

Definition nil_uuid : string := "00000000-0000-0000-0000-000000000000".

Definition chunk : Z := 1000000.

(** Lines 64-68: [start] and [end] for one value of [count], when rows
    are left past [start]. *)
Definition bounds (number_of_rows count : Z) : option (Z * Z) :=
  let start := count * chunk in
  if start <? number_of_rows then
    let end_ := (count + 1) * chunk in
    Some (start, if number_of_rows <? chunk then number_of_rows else end_)
  else None.

Section WithRuntime.

Context (rt : runtime).

Definition arrays_to_CSV_string (arrays : list pyobj) : result string :=
  columns ← mapM iter arrays;
  mret (join newline
          ((fun variables => join "," (str rt <$> variables)) <$> zip_star columns)).

(** [np.char.decode(ds[name][start:end].astype(np.bytes_), 'UTF-8')]. *)
Definition decoded (ds : dataset) (name : string) (proj : record -> string)
    (start end_ : Z) : result pyobj :=
  column ← field ds name proj;
  a ← char_decode (slice column start end_);
  mret (PArray (VStr <$> a)).

(** The same under [try], with [except ValueError:] filling an array of
    [end] nil identifiers. *)
Definition decoded_or_nil (ds : dataset) (name : string) (proj : record -> string)
    (start end_ : Z) : result pyobj :=
  try_except_ValueError (decoded ds name proj start end_)
    (Ok (PArray (full end_ (VStr nil_uuid)))).

(** [np.vectorize(divide)(ds[name][start:end], 100000000)]. *)
Definition scaled (ds : dataset) (name : string) (proj : record -> Z)
    (start end_ : Z) : result pyobj :=
  column ← field ds name proj;
  a ← vectorize (fun x => Ok (divide x 100000000)) (slice column start end_);
  mret (PArray (VFloat <$> a)).

(** [np.vectorize(datetime.fromtimestamp)(ds['time'][start:end] / 1e6).astype('str')]. *)
Definition timestamps (ds : dataset) (start end_ : Z) : result pyobj :=
  column ← field ds "time" time;
  a ← vectorize (datetime_str rt)
        ((fun t => (float_of_int t / 1e6)%float) <$> slice column start end_);
  mret (PArray (VStr <$> a)).

(** Lines 70-101: the arrays of one chunk. *)
Definition gather (ds : dataset) (db_table : string) (product_id start end_ : Z)
    (loc : locals) : result locals :=
  let db_table_name := drop_chars 10 db_table in
  loc ← (if bool_decide (db_table_name ∈ ["match"; "open"; "done"; "change"]) then
           let loc := assign "product_id_array" (PArray (full end_ (VInt product_id))) loc in
           side_array ← decoded ds "side" side start end_;
           let loc := assign "side_array" side_array loc in
           timestamp_array ← timestamps ds start end_;
           let loc := assign "timestamp_array" timestamp_array loc in
           column ← field ds "price" price;
           mret (assign "price_array" (PArray (slice column start end_)) loc)
         else mret loc);
  loc ← (if bool_decide (db_table_name ∈ ["open"; "done"; "change"; "received"]) then
           order_id_array ← decoded_or_nil ds "order_id" order_id start end_;
           mret (assign "order_id_array" order_id_array loc)
         else mret loc);
  loc ← (if bool_decide (db_table_name ∈ ["match"; "open"; "done"; "change"; "received"]) then
           side_array ← decoded ds "side" side start end_;
           mret (assign "side_array" side_array loc)
         else mret loc);
  loc ← (if bool_decide (db_table_name ∈ ["open"; "done"]) then
           remaining_size_array ← scaled ds "remaining_size" remaining_size start end_;
           mret (assign "remaining_size_array" remaining_size_array loc)
         else mret loc);
  loc ← (if bool_decide (db_table_name = "match") then
           size_array ← scaled ds "size" size start end_;
           let loc := assign "size_array" size_array loc in
           maker_order_id_array ← decoded_or_nil ds "maker_order_id" maker_order_id start end_;
           let loc := assign "maker_order_id_array" maker_order_id_array loc in
           taker_order_id_array ← decoded_or_nil ds "taker_order_id" taker_order_id start end_;
           mret (assign "taker_order_id_array" taker_order_id_array loc)
         else mret loc);
  loc ← (if bool_decide (db_table_name = "change") then
           old_size_array ← scaled ds "old_size" old_size start end_;
           let loc := assign "old_size_array" old_size_array loc in
           new_size_array ← scaled ds "new_size" new_size start end_;
           mret (assign "new_size_array" new_size_array loc)
         else mret loc);
  loc ← (if bool_decide (db_table_name = "done") then
           reason_array ← decoded ds "reason" reason start end_;
           mret (assign "reason_array" reason_array loc)
         else mret loc);
  if bool_decide (db_table_name = "received") then
    order_type_array ← decoded ds "order_type" order_type start end_;
    mret (assign "order_type_array" order_type_array loc)
  else mret loc.

(** [if kind in db_table: sio.writelines(arrays_to_CSV_string(arrays=[...]))]. *)
Definition write_if (kind db_table : string) (names : list string) (loc : locals)
    (sio : string) : result string :=
  if contains kind db_table then
    arrays ← mapM (load loc) names;
    text ← arrays_to_CSV_string arrays;
    mret (sio +:+ text)
  else mret sio.

(** Lines 104-123: the text written to the [StringIO]. *)
Definition write_arrays (db_table : string) (loc : locals) : result string :=
  sio ← write_if "open" db_table
          ["product_id_array"; "side_array"; "timestamp_array"; "price_array";
           "remaining_size_array"; "order_id_array"] loc EmptyString;
  sio ← write_if "done" db_table
          ["product_id_array"; "side_array"; "timestamp_array"; "price_array";
           "remaining_size_array"; "reason_array"; "order_id_array"] loc sio;
  sio ← write_if "match" db_table
          ["product_id_array"; "side_array"; "timestamp_array"; "price_array"; "size_array";
           "maker_order_id_array"; "taker_order_id_array"] loc sio;
  sio ← write_if "change" db_table
          ["product_id_array"; "side_array"; "timestamp_array"; "price_array"; "old_size_array";
           "new_size_array"; "order_id_array"] loc sio;
  write_if "received" db_table ["order_id_array"; "order_type_array"; "side_array"] loc sio.

(** [str(t)] with the quote characters removed, for a tuple of plain names. *)
Definition tuple_text (t : list string) : string :=
  match t with
  | [x] => "(" +:+ x +:+ ",)"
  | _ => "(" +:+ join ", " t +:+ ")"
  end.

(** [cur.copy_expert(sql, sio, size=8192)]: the server takes the rows, or
    psycopg2 raises. *)
Definition copy_expert (sql sio : string) (db : database) : result database :=
  match copy_error rt db sql sio with
  | Some e => Raise e
  | None => Ok (copy_rows sql sio db)
  end.

(** Lines 128-129. *)
Definition copy_statement (db_table : string) : result string :=
  columns ← getitem db_table_columns (drop_chars 10 db_table);
  mret ("COPY " +:+ db_table +:+ " " +:+ tuple_text (drop 1 columns)
        +:+ " FROM STDIN WITH CSV HEADER").

(** Lines 64-131: the body of the loop, for one value of [count]. *)
Definition chunk_body (ds : dataset) (db_table : string) (product_id number_of_rows : Z)
    (st : locals * database) (count : Z) : result (locals * database) :=
  match bounds number_of_rows count with
  | Some (start, end_) =>
      loc ← gather ds db_table product_id start end_ st.1;
      sio ← write_arrays db_table loc;
      sql ← copy_statement db_table;
      db ← copy_expert sql sio st.2;
      mret (loc, db)
  | None => mret st
  end.

(** A [for] loop whose body may raise. *)
Fixpoint for_each {S X} (body : S -> X -> result S) (s : S) (xs : list X) : result S :=
  match xs with
  | [] => Ok s
  | x :: xs' => s' ← body s x; for_each body s' xs'
  end.

(** The number of turns of the loop: [int(round((number_of_rows / chunk) + 0.5))],
    the quotient and the sum taken exactly. *)
Definition turns (number_of_rows : Z) : Z :=
  round_half_even (2 * number_of_rows + chunk) (2 * chunk).

Definition assemble_data_as_string (h5 : h5file) (group table db_table : string)
    (product_id : Z) (db : database) : result database :=
  ds ← h5_getitem h5 group table;
  let number_of_rows := len (rows ds) in
  st ← for_each (chunk_body ds db_table product_id number_of_rows) (initial_locals, db)
         (range (turns number_of_rows));
  mret st.2.

End WithRuntime.

(** The statement is built by [str.format] from the four values. *)
Definition insert_product_id (symbol currency symbol_name exchange : string)
    (db : database) : result database :=
  symbol ← literal symbol;
  currency ← literal currency;
  symbol_name ← literal symbol_name;
  exchange ← literal exchange;
  mret (insert_product symbol currency symbol_name exchange db).

(** [h5], [group] and [table] are the module-level variables of the loop
    that calls it. The statement is built by [str.format] and executed
    outside the [try]; the bare [except:] turns a missing row into 0. *)
Definition populate_product_table (h5 : h5file) (group table : string)
    (symbol currency exchange : string) (db : database) : result Z :=
  ds ← h5_getitem h5 group table;
  if 0 <? len (rows ds) then
    symbol ← literal symbol;
    currency ← literal currency;
    exchange ← literal exchange;
    match select_product symbol currency exchange db with
    | Some r => mret (p_unique_id r)
    | None => mret 0
    end
  else mret 0.

Definition symbol_name_lookup : gmap string string :=
  list_to_map
    [("BTC", "Bitcoin"); ("ETH", "Ethereum"); ("LTC", "Litecoin"); ("XLM", "Stellar");
     ("OMG", "OMG Network"); ("DASH", "Dash"); ("EOS", "EOS")].

Definition hdf_folder : string :=
  "/srv/dev-disk-by-uuid-72faeb4b-1843-416e-b797-438a1f605024/websocket-scraper".

(** What the script prints, without the clock readings. *)
Inductive message : Type :=
| Processing (file_in_folder : string)
| Loading (table group : string)
| TimeTaken
| AlreadyIngested (filename time : string).

(** The state of a run: the tables as the connection sees them, the
    tables as another connection sees them (the rows as of the last
    [conn.commit()], and the sequences as they are, since a sequence is
    not rolled back), and the standard output. *)
Record session : Type := {
  conn : database;
  durable : database;
  stdout : list message
}.

Definition print (m : message) (s : session) : session :=
  {| conn := conn s; durable := durable s; stdout := stdout s ++ [m] |}.

(** A statement that changes the tables, within the transaction. *)
Definition execute (f : database -> database) (s : session) : session :=
  let db := f (conn s) in
  {| conn := db; durable := with_sequences db (durable s); stdout := stdout s |}.

Definition commit (s : session) : session :=
  {| conn := conn s; durable := conn s; stdout := stdout s |}.

Section Main.

Context (rt : runtime).

(** Lines 204-210: the body of the loop over the tables of a group. *)
Definition process_table (h5 : h5file) (group : string) (s : session) (table : string)
    : result session :=
  let s := print (Loading table group) s in
  '(symbol, currency) ← unpack2 (split "_" table);
  symbol_name ← getitem symbol_name_lookup symbol;
  db ← insert_product_id symbol currency symbol_name "Coinbase Pro" (conn s);
  let s := execute (fun _ => db) s in
  product_id ← populate_product_table h5 group table symbol currency "Coinbase Pro" (conn s);
  db ← assemble_data_as_string rt h5 group table ("tick_data_" +:+ group) product_id (conn s);
  let s := commit (execute (fun _ => db) s) in
  mret (print TimeTaken s).

(** Lines 202-203. *)
Definition process_group (h5 : h5file) (s : session) (entry : string * list (string * dataset))
    : result session :=
  for_each (process_table h5 entry.1) s (entry.2.*1).

(** Lines 188-214: one file of the folder, once [h5py.File] has opened it
    as [h5]; [now] is the text of [datetime.now()]. The two statements
    are built by [str.format]. *)
Definition process_file (file_in_folder : string) (h5 : h5file) (now : string)
    (s : session) : result session :=
  let file_path := hdf_folder +:+ "/" +:+ file_in_folder in
  name ← literal file_in_folder;
  match select_file_log name (conn s) with
  | None =>
      let s := print (Processing file_in_folder) s in
      filename ← literal file_path;
      time ← literal now;
      let s := execute (insert_file_log filename time) s in
      for_each (process_group h5) s h5
  | Some filename_check =>
      mret (print (AlreadyIngested (f_filename filename_check) (f_time filename_check)) s)
  end.

(** Lines 184-187: the loop over the folder. An entry of the listing is a
    name of [os.listdir], what [h5py.File] gives for it (it raises
    [OSError] for a file that is not HDF5) and the text of the clock at
    its turn. The file is opened before the ledger is looked up. *)
Definition main (listing : list (string * result h5file * string)) (s : session)
    : result session :=
  for_each
    (fun s '(file_in_folder, file, now) =>
       if negb (startswith file_in_folder ".") && endswith file_in_folder ".h5"
       then h5 ← file; process_file file_in_folder h5 now s
       else mret s)
    s listing.

End Main.

End Ingest.
Export Ingest.

(** ** Worked examples

    A host for the examples, and the data they run on. The functions of
    the host stand for CPython's and for a server that takes every bulk
    load; they are not part of the script. *)

Module Example.

(** [z] in decimal, padded with zeros on the left to [n] digits. *)
Definition padded (n : nat) (z : Z) : string :=
  let s := str_int z in
  string_of_list_ascii (replicate (n - String.length s) "0"%char) +:+ s.

(** Drops the zeros at the end of a fraction of [k] digits. *)
Fixpoint strip_zeros (k : nat) (f : Z) : nat * Z :=
  match k with
  | O => (O, f)
  | S k' => if f `mod` 10 =? 0 then strip_zeros k' (f `div` 10) else (k, f)
  end.

(** The exact decimal expansion of a float, written as CPython writes a
    float in positional notation. It is what [str] gives for every float
    whose expansion has at most 15 significant digits and whose magnitude
    is in [1e-4, 1e16), which covers the floats of the examples. *)
Definition exact_decimal (f : float) : string :=
  match Prim2SF f with
  | S754_zero s => if s then "-0.0" else "0.0"
  | S754_infinity s => if s then "-inf" else "inf"
  | S754_nan => "nan"
  | S754_finite s m e =>
      (if s then "-" else EmptyString) +:+
      (if 0 <=? e then str_int (Z.pos m * 2 ^ e) +:+ ".0"
       else
         let num := Z.pos m * 5 ^ (- e) in
         let '(k, frac) := strip_zeros (Z.to_nat (- e)) (num `mod` 10 ^ (- e)) in
         str_int (num `div` 10 ^ (- e)) +:+ "." +:+
         match k with O => "0" | _ => padded k frac end)
  end.

(** The calendar date of a day counted from 1970-01-01. *)
Definition civil_from_days (days : Z) : Z * Z * Z :=
  let z := days + 719468 in
  let era := z `div` 146097 in
  let doe := z - era * 146097 in
  let yoe := (doe - doe `div` 1460 + doe `div` 36524 - doe `div` 146096) `div` 365 in
  let doy := doe - (365 * yoe + yoe `div` 4 - yoe `div` 100) in
  let mp := (5 * doy + 2) `div` 153 in
  let d := doy - (153 * mp + 2) `div` 5 + 1 in
  let m := if mp <? 10 then mp + 3 else mp - 9 in
  let y := yoe + era * 400 + (if m <=? 2 then 1 else 0) in
  (y, m, d).

(** [str(datetime.fromtimestamp(t))] on a host whose time zone is UTC:
    [t] is rounded to the microsecond, a half going to the even one. *)
Definition utc_datetime_str (t : float) : result string :=
  let microseconds :=
    match Prim2SF t with
    | S754_zero _ => Some 0
    | S754_finite s m e =>
        let n := if s then Z.neg m else Z.pos m in
        Some (if 0 <=? e then n * 1000000 * 2 ^ e
              else round_half_even (n * 1000000) (2 ^ (- e)))
    | _ => None
    end in
  match microseconds with
  | None => Raise ValueError
  | Some us =>
      let seconds := us `div` 1000000 in
      let '(y, m, d) := civil_from_days (seconds `div` 86400) in
      let sod := seconds `mod` 86400 in
      if (1 <=? y) && (y <=? 9999) then
        Ok (padded 4 y +:+ "-" +:+ padded 2 m +:+ "-" +:+ padded 2 d +:+ " " +:+
            padded 2 (sod `div` 3600) +:+ ":" +:+ padded 2 ((sod `mod` 3600) `div` 60) +:+ ":" +:+
            padded 2 (sod `mod` 60) +:+
            (if us `mod` 1000000 =? 0 then EmptyString
             else "." +:+ padded 6 (us `mod` 1000000)))
      else Raise ValueError
  end.

(** The host of the examples. *)
Definition host : runtime :=
  {| str_float := exact_decimal; datetime_str := utc_datetime_str;
     copy_error := fun _ _ _ => None |}.

(** Two executed trades; the taker identifier of the second one is not
    UTF-8. *)
Definition trade1 : record :=
  {| side := "buy"; time := 1500000000000000; price := VInt 150000000; size := 100000000;
     maker_order_id := "maker-1"; taker_order_id := "taker-1";
     remaining_size := 0; order_id := EmptyString; old_size := 0; new_size := 0;
     reason := EmptyString; order_type := EmptyString |}.

Definition trade2 : record :=
  {| side := "sell"; time := 1500000000500000; price := VInt 150250000; size := 25000000;
     maker_order_id := "maker-2"; taker_order_id := String (ascii_of_N 255) EmptyString;
     remaining_size := 0; order_id := EmptyString; old_size := 0; new_size := 0;
     reason := EmptyString; order_type := EmptyString |}.

Definition trades : dataset :=
  {| dtype := ["side"; "time"; "price"; "size"; "maker_order_id"; "taker_order_id"];
     rows := [trade1; trade2] |}.

Definition no_rows : dataset := {| dtype := []; rows := [] |}.

(** A file with one table of executed trades. *)
Definition file : h5file := [("match", [("BTC_USD", trades)])].


(** A placed order whose identifier is not UTF-8, and a table of 1,000,001
    of them. *)
Definition undecodable : record :=
  {| side := "buy"; time := 1500000000000000; price := VInt 150000000; size := 0;
     maker_order_id := EmptyString; taker_order_id := EmptyString;
     remaining_size := 100000000; order_id := String (ascii_of_N 255) EmptyString;
     old_size := 0; new_size := 0; reason := EmptyString; order_type := EmptyString |}.

Definition long_open : dataset :=
  {| dtype := ["side"; "time"; "price"; "remaining_size"; "order_id"];
     rows := replicate (Z.to_nat 1000001) undecodable |}.

(** The store before anything was loaded, and a run that starts on it. *)
Definition empty_db : database :=
  {| product := []; product_seq := 1; file_log := []; file_log_seq := 1; copied := [] |}.

Definition session0 : session :=
  {| conn := empty_db; durable := empty_db; stdout := [] |}.

(** An executed trade whose side is not UTF-8, alone in its table. *)
Definition garbled_trade : record :=
  {| side := String (ascii_of_N 255) EmptyString; time := 1500000000000000;
     price := VInt 150000000; size := 100000000;
     maker_order_id := "maker-1"; taker_order_id := "taker-1";
     remaining_size := 0; order_id := EmptyString; old_size := 0; new_size := 0;
     reason := EmptyString; order_type := EmptyString |}.

Definition garbled : dataset :=
  {| dtype := ["side"; "time"; "price"; "size"; "maker_order_id"; "taker_order_id"];
     rows := [garbled_trade] |}.

Definition garbled_file : h5file := [("match", [("BTC_USD", garbled)])].



(** A file whose table of executed trades has no row, and a file whose
    only group has no table. *)
Definition empty_match_file : h5file := [("match", [("BTC_USD", no_rows)])].

(** A store that holds one product, and a run that starts on it. *)
Definition one_product_db : database :=
  {| product := [{| p_unique_id := 7; p_symbol := "ETH"; p_currency := "USD";
                    p_name := "Ethereum"; p_exchange := "Coinbase Pro" |}];
     product_seq := 8; file_log := []; file_log_seq := 1; copied := [] |}.

Definition one_product_session : session :=
  {| conn := one_product_db; durable := one_product_db; stdout := [] |}.

(** A store whose product table was filled with its keys given, as when
    it is restored from a dump, and whose sequence was left behind: the
    next value of the sequence is a key of the table. A run that starts
    on it. *)
Definition stale_db : database :=
  {| product := [{| p_unique_id := 1; p_symbol := "ETH"; p_currency := "USD";
                    p_name := "Ethereum"; p_exchange := "Coinbase Pro" |}];
     product_seq := 1; file_log := []; file_log_seq := 1; copied := [] |}.

Definition stale_session : session :=
  {| conn := stale_db; durable := stale_db; stdout := [] |}.

(** The COPY statement for the table of executed trades. *)
Definition copy_match : string :=
  "COPY tick_data_match (product_id, side, time, price, size, maker_order_id, taker_order_id) FROM STDIN WITH CSV HEADER".

End Example.

(** ** The vocabulary of the properties *)

(** The ranges [(start, end)] the loop works on, in order. *)
Definition ranges (number_of_rows : Z) : list (Z * Z) :=
  omap (bounds number_of_rows) (range (turns number_of_rows)).

(** The number of chunks of a dataset. *)
Definition chunks (number_of_rows : Z) : Z := (number_of_rows + chunk - 1) `div` chunk.

(** The length of the shortest of some arrays; 0 when there is none. *)
Definition shortest {A} (arrays : list (list A)) : nat :=
  match arrays with
  | [] => 0%nat
  | a :: rest => foldr (fun b n => Nat.min (length b) n) (length a) rest
  end.

(** The text of rows of values: fields joined by commas, rows by line feeds. *)
Definition csv_text (rt : runtime) (rows : list (list value)) : string :=
  join newline ((fun row => join "," (str rt <$> row)) <$> rows).

(** A row of the fact table of executed trades, for the element [r] of a
    dataset: the product, then the element's side, time, price, size and
    the identifiers of its two orders, an identifier being the nil one
    where its chunk could not be decoded. *)
Definition executed_row (rt : runtime) (product_id : Z) (r : record) (row : list value) : Prop :=
  exists side_text time_text maker taker,
    decode (side r) = Ok side_text
    /\ datetime_str rt (float_of_int (time r) / 1e6)%float = Ok time_text
    /\ (decode (maker_order_id r) = Ok maker \/ maker = nil_uuid)
    /\ (decode (taker_order_id r) = Ok taker \/ taker = nil_uuid)
    /\ row = [VInt product_id; VStr side_text; VStr time_text; price r;
              VFloat (divide (size r) 100000000); VStr maker; VStr taker].

(** An array that has, for every element of [sl], an element at the same
    index that [P] relates to it. *)
Definition covers {A B} (P : A -> B -> Prop) (sl : list A) (a : list B) : Prop :=
  forall i r, sl !! i = Some r -> exists x, a !! i = Some x /\ P r x.

(** The tables after some more bulk loads. *)
Definition loaded (db : database) (calls : list copy_call) : database :=
  {| product := product db;
     product_seq := product_seq db;
     file_log := file_log db;
     file_log_seq := file_log_seq db;
     copied := copied db ++ calls |}.

(** A bulk load that one turn of the loop of [assemble_data_as_string]
    hands to [copy_expert]. *)
Definition emitted (rt : runtime) (ds : dataset) (db_table : string) (product_id : Z)
    (c : copy_call) : Prop :=
  exists count start end_ loc loc',
    0 <= count
    /\ bounds (len (rows ds)) count = Some (start, end_)
    /\ gather rt ds db_table product_id start end_ loc = Ok loc'
    /\ write_arrays rt db_table loc' = Ok (cc_file c)
    /\ copy_statement db_table = Ok (cc_sql c).

(** The five kinds of events, as [db_table_columns] lists them. *)
Definition known_kinds : list string := ["match"; "open"; "change"; "done"; "received"].

(** The product table as its declaration keeps it: the keys are positive
    and below the next value of the sequence, and no two rows carry the
    same (symbol, currency, exchange). *)
Definition wf_db (db : database) : Prop :=
  0 < product_seq db
  /\ Forall (fun r => 0 < p_unique_id r < product_seq db) (product db)
  /\ forall symbol currency exchange,
       (length (List.filter (same_key symbol currency exchange) (product db)) <= 1)%nat.

(** A bulk load that the turn of the loop working on the range [rg] hands
    to [copy_expert]. *)
Definition emitted_at (rt : runtime) (ds : dataset) (db_table : string) (product_id : Z)
    (rg : Z * Z) (c : copy_call) : Prop :=
  exists loc loc',
    gather rt ds db_table product_id rg.1 rg.2 loc = Ok loc'
    /\ write_arrays rt db_table loc' = Ok (cc_file c)
    /\ copy_statement db_table = Ok (cc_sql c).

(** The columns of the fact tables, by what the script puts in them: the
    product, the time, the price, a size, an identifier (read under
    [try]), any other text. *)
Inductive column : Type :=
| CProduct
| CTime
| CPrice
| CScaled (name : string) (proj : record -> Z)
| CIdent (name : string) (proj : record -> string)
| CText (name : string) (proj : record -> string).

Definition column_name (col : column) : string :=
  match col with
  | CProduct => "product_id"
  | CTime => "time"
  | CPrice => "price"
  | CScaled name _ | CIdent name _ | CText name _ => name
  end.

(** The field of a column for the element [r]: the product looked up for
    the table, the text of the time, the price as stored, a size divided
    by 10^8, an identifier decoded or replaced by the nil one, a text
    decoded. *)
Definition cell (rt : runtime) (product_id : Z) (col : column) (r : record) (x : value) : Prop :=
  match col with
  | CProduct => x = VInt product_id
  | CTime => exists s, datetime_str rt (float_of_int (time r) / 1e6)%float = Ok s /\ x = VStr s
  | CPrice => x = price r
  | CScaled _ proj => x = VFloat (divide (proj r) 100000000)
  | CIdent _ proj => exists s, (decode (proj r) = Ok s \/ s = nil_uuid) /\ x = VStr s
  | CText _ proj => exists s, decode (proj r) = Ok s /\ x = VStr s
  end.

(** The arrays written for each kind (lines 105-123), in order. *)
Definition layout (kind : string) : list column :=
  if String.eqb kind "open" then
    [CProduct; CText "side" side; CTime; CPrice; CScaled "remaining_size" remaining_size;
     CIdent "order_id" order_id]
  else if String.eqb kind "done" then
    [CProduct; CText "side" side; CTime; CPrice; CScaled "remaining_size" remaining_size;
     CText "reason" reason; CIdent "order_id" order_id]
  else if String.eqb kind "match" then
    [CProduct; CText "side" side; CTime; CPrice; CScaled "size" size;
     CIdent "maker_order_id" maker_order_id; CIdent "taker_order_id" taker_order_id]
  else if String.eqb kind "change" then
    [CProduct; CText "side" side; CTime; CPrice; CScaled "old_size" old_size;
     CScaled "new_size" new_size; CIdent "order_id" order_id]
  else if String.eqb kind "received" then
    [CIdent "order_id" order_id; CText "order_type" order_type; CText "side" side]
  else [].

(** A row of the fact table of a kind, for the element [r]. *)
Definition fact_row (rt : runtime) (product_id : Z) (kind : string) (r : record)
    (row : list value) : Prop :=
  Forall2 (fun col x => cell rt product_id col r x) (layout kind) row.

(** The bulk load of some rows into the fact table of a kind. *)
Definition bulk_load (rt : runtime) (kind : string) (out : list (list value)) : copy_call :=
  {| cc_sql := "COPY tick_data_" +:+ kind +:+ " " +:+ tuple_text (column_name <$> layout kind)
               +:+ " FROM STDIN WITH CSV HEADER";
     cc_file := csv_text rt out |}.

(** Whether the dataset has the field a column is read from. *)
Definition has_field (ds : dataset) (col : column) : Prop :=
  match col with
  | CProduct => True
  | CTime => "time" ∈ dtype ds
  | CPrice => "price" ∈ dtype ds
  | CScaled name _ | CIdent name _ | CText name _ => name ∈ dtype ds
  end.

(** Whether the element [r] can be converted for a column: a text is
    UTF-8 and the host has a date for the time. An identifier that is not
    UTF-8 is replaced, and numbers are always converted. *)
Definition converts (rt : runtime) (r : record) (col : column) : Prop :=
  match col with
  | CText _ proj => utf8_valid (proj r) = true
  | CTime => exists s, datetime_str rt (float_of_int (time r) / 1e6)%float = Ok s
  | _ => True
  end.

(** A dataset that the script can load as a table of a kind. *)
Definition readable (rt : runtime) (kind : string) (ds : dataset) : Prop :=
  Forall (has_field ds) (layout kind)
  /\ Forall (fun r => Forall (converts rt r) (layout kind)) (rows ds).



(** How many times a character occurs in a string. *)
Fixpoint count_char (c : ascii) (s : string) : nat :=
  match s with
  | EmptyString => 0
  | String c' s' => (if Ascii.eqb c' c then 1 else 0) + count_char c s'
  end.



(** The state in which a later run of the script starts: its connection
    sees what another connection saw at the end of the earlier one, and
    nothing is printed yet. *)
Definition restart (s : session) : session :=
  {| conn := durable s; durable := durable s; stdout := [] |}.

(** The sizes of a row of each fact table that has a price: their places
    in the row and the fields they are read from. *)
Definition scaled_sizes (kind : string) : list (nat * (record -> Z)) :=
  if String.eqb kind "match" then [(4%nat, size)]
  else if String.eqb kind "change" then [(4%nat, old_size); (5%nat, new_size)]
  else [(4%nat, remaining_size)].


(** ** Proofs *)

(** *** The error monad *)

Lemma bind_Ok {A B} (m : result A) (k : A -> result B) (b : B) :
  m ≫= k = Ok b <-> exists a, m = Ok a /\ k a = Ok b.
Proof.
  destruct m as [a|e]; simpl.
  - split; [intros H; by exists a | by intros (a' & [= <-] & H)].
  - split; [done | by intros (a' & [=] & _)].
Qed.

Lemma bind_ret_l {A B} (a : A) (k : A -> result B) : Ok a ≫= k = k a.
Proof. done. Qed.

Lemma mapM_result_Ok {A B} (f : A -> result B) (l : list A) (k : list B) :
  mapM f l = Ok k <-> Forall2 (fun x y => f x = Ok y) l k.
Proof.
  revert k. induction l as [|x l IH]; intros k; simpl.
  - split; [intros [= <-]; constructor | by inversion 1].
  - rewrite bind_Ok. split.
    + intros (y & Hy & H). apply bind_Ok in H as (k' & Hk' & [= <-]).
      constructor; [done | by apply IH].
    + inversion 1 as [|? y ? k' Hy Hk']; subst. exists y. split; [done|].
      apply bind_Ok. exists k'. split; [by apply IH | done].
Qed.

Lemma mapM_iter_arrays (arrays : list (list value)) :
  mapM iter (PArray <$> arrays) = Ok arrays.
Proof.
  apply mapM_result_Ok. induction arrays; constructor; done.
Qed.

(** *** zip *)

Lemma zip_rows_lookup {A} (a : list A) (rest : list (list A)) (i : nat) (row : list A) :
  zip_rows a rest !! i = Some row <->
  exists x xs, row = x :: xs /\ a !! i = Some x /\ Forall2 (fun b y => b !! i = Some y) rest xs.
Proof.
  revert rest i. induction a as [|x a IH]; intros rest i; simpl.
  - split; [done | by intros (? & ? & _ & ? & _)].
  - destruct (mapM head rest) as [hs|] eqn:Hhs.
    + apply mapM_Some in Hhs. destruct i as [|i]; simpl.
      * split.
        -- intros [= <-]. exists x, hs. repeat split; [].
           eapply Forall2_impl; [exact Hhs|]. intros b y Hb. by destruct b; simplify_eq/=.
        -- intros (x' & xs & -> & [= <-] & Hxs). do 2 f_equal.
           revert Hxs. clear -Hhs. revert xs. induction Hhs as [|b y rest hs Hb _ IH'];
             intros xs; inversion 1; subst; [done|].
           f_equal; [|by apply IH']. destruct b; simplify_eq/=. done.
      * rewrite IH. split; intros (x' & xs & -> & Hx & Hxs); exists x', xs; repeat split; try done.
        -- apply Forall2_fmap_l in Hxs. eapply Forall2_impl; [exact Hxs|].
           intros b y; simpl. by rewrite lookup_tail.
        -- apply Forall2_fmap_l. eapply Forall2_impl; [exact Hxs|].
           intros b y; simpl. by rewrite lookup_tail.
    + split; [done|]. intros (x' & xs & -> & _ & Hxs). exfalso.
      assert (is_Some (mapM head rest)) as [? ?]; [|congruence].
      exists ((fun b => default x (head b)) <$> rest). apply mapM_Some.
      apply Forall2_fmap_r. clear -Hxs. induction Hxs as [|b y rest xs Hb _ IH']; constructor; [|done].
      destruct i, b; simplify_eq/=; done.
Qed.

Lemma zip_rows_length {A} (a : list A) (rest : list (list A)) :
  length (zip_rows a rest) = foldr (fun b n => Nat.min (length b) n) (length a) rest.
Proof.
  revert rest. induction a as [|x a IH]; intros rest; simpl.
  - induction rest as [|b rest IH']; simpl; [done|]. rewrite <-IH'. lia.
  - destruct (mapM head rest) as [hs|] eqn:Hhs; simpl.
    + rewrite IH. apply mapM_Some in Hhs. clear IH.
      induction Hhs as [|b y rest hs Hb _ IH']; simpl; [done|].
      destruct b; simplify_eq/=. rewrite <-IH'. lia.
    + assert (exists b, b ∈ rest /\ b = []) as (b & Hb & ->).
      { clear -Hhs. induction rest as [|b rest IH]; simplify_eq/=.
        destruct b as [|y b]; [exists []; split; [left|done]|]. simpl in Hhs.
        destruct (mapM head rest); simplify_eq/=.
        destruct IH as (b' & ? & ?); [done|]. exists b'. split; [by right|done]. }
      clear -Hb. induction rest as [|b rest IH]; [by inversion Hb|]. simpl.
      inversion Hb; subst; simpl; [lia|]. rewrite <-IH by done. lia.
Qed.

Lemma zip_star_length {A} (arrays : list (list A)) :
  length (zip_star arrays) = shortest arrays.
Proof. destruct arrays; [done|]. apply zip_rows_length. Qed.

Lemma zip_star_lookup {A} (arrays : list (list A)) (i : nat) (row : list A) :
  zip_star arrays !! i = Some row <->
  arrays <> [] /\ Forall2 (fun a x => a !! i = Some x) arrays row.
Proof.
  destruct arrays as [|a rest]; simpl.
  - split; [done | by intros [? _]].
  - rewrite zip_rows_lookup. split.
    + intros (x & xs & -> & Hx & Hxs). split; [done|]. by constructor.
    + intros [_ H]. inversion H; subst. eauto.
Qed.

(** *** Joining *)

Lemma append_assoc (s1 s2 s3 : string) : (s1 +:+ s2) +:+ s3 = s1 +:+ (s2 +:+ s3).
Proof.
  induction s1 as [|c s1 IH]; [done|].
  change (String c ((s1 +:+ s2) +:+ s3) = String c (s1 +:+ (s2 +:+ s3))).
  by rewrite IH.
Qed.

Lemma join_cons2 (sep x y : string) (l : list string) :
  join sep (x :: y :: l) = x +:+ sep +:+ join sep (y :: l).
Proof. done. Qed.

Lemma join_snoc (sep : string) (l : list string) (x : string) :
  join sep (l ++ [x]) = match l with [] => x | _ => join sep l +:+ sep +:+ x end.
Proof.
  induction l as [|y l IH]; [done|].
  destruct l as [|z l]; [done|].
  change (join sep (y :: z :: (l ++ [x])%list) = join sep (y :: z :: l) +:+ sep +:+ x).
  rewrite join_cons2. change (z :: (l ++ [x])%list) with ((z :: l) ++ [x])%list.
  rewrite IH, join_cons2, !append_assoc. done.
Qed.

(** C10. [arrays_to_CSV_string] never raises on arrays: it returns the
    text of the rows [zip] builds from them, row [i] made of the [i]-th
    element of every array in order, as many rows as the shortest array
    has elements (what the longer arrays hold past that is dropped); the
    fields of a row are joined by commas and the rows by line feeds, so
    that the text ends with the last row and no line terminator follows. *)
Theorem arrays_to_CSV_string_rows (rt : runtime) (arrays : list (list value)) :
  exists rows : list (list value),
    arrays_to_CSV_string rt (PArray <$> arrays)
      = Ok (join newline ((fun row => join "," (str rt <$> row)) <$> rows))
    /\ length rows = shortest arrays
    /\ (forall i row, rows !! i = Some row ->
          Forall2 (fun a x => a !! i = Some x) arrays row)
    /\ (forall before row, rows = (before ++ [row])%list ->
          join newline ((fun row => join "," (str rt <$> row)) <$> rows)
          = match before with
            | [] => join "," (str rt <$> row)
            | _ => join newline ((fun row => join "," (str rt <$> row)) <$> before)
                   +:+ newline +:+ join "," (str rt <$> row)
            end).
Proof.
  exists (zip_star arrays). split; [|split; [|split]].
  - unfold arrays_to_CSV_string. by rewrite mapM_iter_arrays.
  - apply zip_star_length.
  - intros i row Hrow. by apply zip_star_lookup in Hrow as [_ ?].
  - intros before row ->. rewrite fmap_app. simpl. rewrite join_snoc.
    by destruct before.
Qed.

(** C6. [divide] on a nonzero scale is the quotient of the two numbers
    as floats; elementwise on [0, 100000000, 50000000] at scale 100000000
    it yields [0.0, 1.0, 0.5]; and on the scale 0 it yields 0.0 for every
    element, without raising. *)
Theorem divide_scaled_decimal :
  (forall a s : Z, s <> 0 -> divide a s = (float_of_int a / float_of_int s)%float)
  /\ vectorize (fun a => Ok (divide a 100000000)) [0; 100000000; 50000000]
     = Ok [0%float; 1%float; 0.5%float]
  /\ (forall a : Z, divide a 0 = 0%float)
  /\ (forall (a : Z) (l : list Z),
        vectorize (fun a => Ok (divide a 0)) (a :: l)
        = Ok (replicate (S (length l)) 0%float)).
Proof.
  split; [|split; [|split]].
  - intros a s Hs. unfold divide. by destruct (Z.eqb_spec s 0).
  - vm_compute. reflexivity.
  - done.
  - intros a l. apply mapM_result_Ok. change (divide _ 0) with 0%float.
    change (replicate (S (length l)) 0%float) with (replicate (length (a :: l)) 0%float).
    induction (a :: l); constructor; done.
Qed.

Lemma divide_scaled_decimal_witness :
  (3 <> 0) /\ divide 3 4 = 0.75%float /\ divide 3 4 = (float_of_int 3 / float_of_int 4)%float.
Proof.
  split; [lia|]. split; [vm_compute; reflexivity|].
  apply (proj1 divide_scaled_decimal 3 4). lia.
Defined.

(** *** The loop *)

Lemma turns_cover (R : Z) : 0 <= R -> R <= turns R * chunk.
Proof.
  intros HR. unfold turns, round_half_even, chunk.
  pose proof (Z.div_mod (2 * R + 1000000) (2 * 1000000) ltac:(lia)) as Hdm.
  pose proof (Z.mod_pos_bound (2 * R + 1000000) (2 * 1000000) ltac:(lia)) as Hm.
  repeat case_match; lia.
Qed.

Lemma turns_0 : turns 0 = 0.
Proof. reflexivity. Qed.

Lemma turns_nonneg (R : Z) : 0 <= R -> 0 <= turns R.
Proof. intros HR. pose proof (turns_cover R HR). unfold chunk in *. lia. Qed.

Lemma turns_pos (R : Z) : 0 < R -> 0 < turns R.
Proof. intros HR. pose proof (turns_cover R ltac:(lia)). unfold chunk in *. lia. Qed.

Lemma range_pos (n : Z) : 0 < n -> range n = 0 :: seqZ 1 (n - 1).
Proof.
  intros Hn. unfold range. replace n with (Z.succ (n - 1)) at 1 by lia.
  rewrite seqZ_cons by lia. f_equal. f_equal; lia.
Qed.

Lemma bounds_Some (R count start end_ : Z) :
  bounds R count = Some (start, end_) <->
  start = count * chunk /\ start < R /\
  end_ = (if R <? chunk then R else (count + 1) * chunk).
Proof.
  unfold bounds. destruct (Z.ltb_spec (count * chunk) R).
  - split; [intros [= <- <-]; done | intros (-> & _ & ->); done].
  - split; [done | intros (-> & ? & _); lia].
Qed.

Lemma chunks_spec (R c : Z) : 0 <= R -> 0 <= c -> (c * chunk < R <-> c < chunks R).
Proof.
  intros HR Hc. unfold chunks, chunk.
  pose proof (Z.div_mod (R + 1000000 - 1) 1000000 ltac:(lia)).
  pose proof (Z.mod_pos_bound (R + 1000000 - 1) 1000000 ltac:(lia)).
  split; intros; nia.
Qed.

Lemma chunks_le_turns (R : Z) : 0 <= R -> 0 <= chunks R <= turns R.
Proof.
  intros HR. pose proof (turns_cover R HR) as Hcov. 
  assert (0 <= chunks R) by (unfold chunks, chunk; apply Z.div_pos; lia).
  split; [done|].
  destruct (Z.le_gt_cases (chunks R) (turns R)) as [|Hgt]; [done|].
  assert (0 <= turns R) by by apply turns_nonneg.
  apply (chunks_spec R (turns R)) in Hgt; lia.
Qed.

Lemma omap_all_Some {A B} (f : A -> option B) (g : A -> B) (l : list A) :
  Forall (fun x => f x = Some (g x)) l -> omap f l = g <$> l.
Proof.
  induction 1 as [|x l Hx _ IH]; [done|].
  change (omap f (x :: l)) with (match f x with Some y => y :: omap f l | None => omap f l end).
  by rewrite Hx, IH.
Qed.

Lemma omap_all_None {A B} (f : A -> option B) (l : list A) :
  Forall (fun x => f x = None) l -> omap f l = [].
Proof.
  induction 1 as [|x l Hx _ IH]; [done|].
  change (omap f (x :: l)) with (match f x with Some y => y :: omap f l | None => omap f l end).
  by rewrite Hx, IH.
Qed.

(** The ranges of the loop: one for each chunk, and nothing for the turns
    past the last chunk. *)
Lemma ranges_chunks (R : Z) :
  0 <= R ->
  ranges R
  = (fun c => (c * chunk, if R <? chunk then R else (c + 1) * chunk)) <$> seqZ 0 (chunks R).
Proof.
  intros HR. unfold ranges, range.
  pose proof (chunks_le_turns R HR) as [Hc Ht].
  replace (turns R) with (chunks R + (turns R - chunks R)) by lia.
  rewrite seqZ_app, omap_app by lia.
  rewrite (omap_all_None _ (seqZ (0 + chunks R) _)), app_nil_r.
  - apply omap_all_Some. apply Forall_seqZ. intros c Hc'.
    unfold bounds. cbv zeta.
    assert ((c * chunk <? R) = true) as ->; [|done].
    apply Z.ltb_lt, chunks_spec; lia.
  - apply Forall_seqZ. intros c Hc'. unfold bounds. cbv zeta.
    assert ((c * chunk <? R) = false) as ->; [|done].
    apply Z.ltb_ge. destruct (Z.le_gt_cases R (c * chunk)) as [|Hlt]; [done|].
    apply chunks_spec in Hlt; lia.
Qed.

Lemma concat_slices {A} (l : list A) (k : nat) :
  concat ((fun c => slice l (c * chunk) ((c + 1) * chunk)) <$> seqZ 0 (Z.of_nat k))
  = take (Z.to_nat (Z.of_nat k * chunk)) l.
Proof.
  induction k as [|k IH]; [done|].
  rewrite seqZ_S, fmap_app, concat_app, IH. simpl. rewrite app_nil_r.
  unfold slice. rewrite take_take_drop. f_equal. unfold chunk.
  rewrite <-Z2Nat.inj_add by lia. f_equal. lia.
Qed.

(** The slices that the loop reads, one after the other, are the dataset:
    a range that ends past the last row reads up to the last row. *)
Lemma slices_cover {A} (l : list A) :
  concat ((fun '(start, end_) => slice l start end_) <$> ranges (len l)) = l.
Proof.
  assert (0 <= len l) as HR by (unfold len; lia).
  rewrite ranges_chunks by done. rewrite <-list_fmap_compose.
  pose proof (chunks_le_turns (len l) HR) as [Hc _].
  transitivity (concat ((fun c => slice l (c * chunk) ((c + 1) * chunk))
                          <$> seqZ 0 (Z.of_nat (Z.to_nat (chunks (len l)))))).
  - rewrite Z2Nat.id by done. f_equal. apply list_fmap_ext.
    intros i c Hc'. apply lookup_seqZ in Hc' as [-> Hi]. cbv beta.
    destruct (Z.ltb_spec (len l) chunk) as [Hsmall|]; [|reflexivity].
    assert (Z.of_nat i = 0) as ->.
    { assert (Z.of_nat i * chunk < len l) by (apply chunks_spec; lia). unfold chunk in *. nia. }
    unfold compose. cbv beta iota. unfold slice.
    rewrite !take_ge by (rewrite length_drop; unfold len, chunk in *; lia). done.
  - rewrite concat_slices. apply take_ge.
    assert (~ (chunks (len l) * chunk < len l)) by (rewrite chunks_spec by lia; lia).
    unfold len, chunk in *. lia.
Qed.

(** C1. On 1,500,000 rows the loop works on the ranges (0, 1000000) and
    (1000000, 2000000): the [end] of the last one is past the last row. *)
Theorem ranges_1500000 :
  ranges 1500000 = [(0, 1000000); (1000000, 2000000)].
Proof. vm_compute. reflexivity. Qed.

(** What holds of every state of a loop holds of its last one. *)
Lemma for_each_invariant {S X} (P : S -> Prop) (body : S -> X -> result S) (xs : list X) (s s' : S) :
  (forall s x s', x ∈ xs -> P s -> body s x = Ok s' -> P s') ->
  P s -> for_each body s xs = Ok s' -> P s'.
Proof.
  revert s. induction xs as [|x xs IH]; intros s Hbody Hs; simpl.
  - by intros [= <-].
  - intros H. apply bind_Ok in H as (s1 & H1 & H).
    eapply IH; [| |exact H].
    + intros ? y ? Hy. apply Hbody. by right.
    + eapply Hbody; [left|exact Hs|exact H1].
Qed.

Lemma loaded_nil (db : database) : loaded db [] = db.
Proof. destruct db. unfold loaded; simpl. by rewrite app_nil_r. Qed.

Lemma loaded_app (db : database) (xs ys : list copy_call) :
  loaded (loaded db xs) ys = loaded db (xs ++ ys).
Proof. unfold loaded; simpl. by rewrite app_assoc. Qed.

Lemma copy_expert_Ok rt sql sio db db' :
  copy_expert rt sql sio db = Ok db' ->
  copy_error rt db sql sio = None /\ db' = copy_rows sql sio db.
Proof. unfold copy_expert. destruct (copy_error _ _ _ _); [done|]. by intros [= <-]. Qed.

Lemma chunk_body_emits rt ds db_table pid st count st' :
  0 <= count ->
  chunk_body rt ds db_table pid (len (rows ds)) st count = Ok st' ->
  (bounds (len (rows ds)) count = None /\ st' = st)
  \/ exists c, emitted rt ds db_table pid c /\ st'.2 = loaded st.2 [c].
Proof.
  intros Hcount. unfold chunk_body.
  destruct (bounds _ count) as [[start end_]|] eqn:Hb; [|intros [= <-]; by left].
  intros H. right.
  apply bind_Ok in H as (loc' & Hg & H).
  apply bind_Ok in H as (sio & Hw & H).
  apply bind_Ok in H as (sql & Hs & H).
  apply bind_Ok in H as (db1 & Hc & [= <-]). apply copy_expert_Ok in Hc as [_ ->].
  exists {| cc_sql := sql; cc_file := sio |}. split; [|done].
  by exists count, start, end_, st.1, loc'.
Qed.

Lemma elem_of_range (n x : Z) : x ∈ range n -> 0 <= x < n.
Proof. unfold range. rewrite elem_of_seqZ. lia. Qed.

(** [assemble_data_as_string] changes the tables by bulk loads only, each
    of them the work of one turn of its loop. *)
Lemma assemble_emits rt h5 group table db_table pid db db' :
  assemble_data_as_string rt h5 group table db_table pid db = Ok db' ->
  exists ds calls,
    h5_getitem h5 group table = Ok ds
    /\ db' = loaded db calls
    /\ Forall (emitted rt ds db_table pid) calls.
Proof.
  unfold assemble_data_as_string. intros H.
  apply bind_Ok in H as (ds & Hds & H).
  apply bind_Ok in H as (st & Hloop & [= <-]).
  exists ds.
  eapply (for_each_invariant
            (fun st => exists calls, st.2 = loaded db calls
                                     /\ Forall (emitted rt ds db_table pid) calls))
    in Hloop as (calls & -> & Hcalls); [by exists calls| |].
  - intros s x s' Hx (calls & Hs & Hcalls) Hbody.
    apply elem_of_range in Hx.
    apply chunk_body_emits in Hbody; [|lia].
    destruct Hbody as [[_ ->]|(c & Hc & ->)]; [by exists calls|].
    exists (calls ++ [c])%list. rewrite Hs, loaded_app. split; [done|].
    apply Forall_app. split; [done|]. by constructor.
  - exists []. simpl. by rewrite loaded_nil.
Qed.

(** *** Columns *)

Lemma mret_Ok {A} (a b : A) : mret a = Ok b -> a = b.
Proof. by intros [=]. Qed.

Ltac eval_conds H :=
  repeat match type of H with
  | context [bool_decide ?P] =>
      let b := eval vm_compute in (bool_decide P) in
      change (bool_decide P) with b in H
  | context [contains ?a ?b] =>
      let v := eval vm_compute in (contains a b) in
      change (contains a b) with v in H
  end.

Ltac inv_result :=
  repeat match goal with
  | H : mret _ = Ok _ |- _ => apply mret_Ok in H; subst
  | H : _ ≫= _ = Ok _ |- _ =>
      let x := fresh "x" in let Hx := fresh "Hx" in
      apply bind_Ok in H as (x & Hx & H)
  end.

Lemma slice_fmap {A B} (f : A -> B) (l : list A) (start end_ : Z) :
  slice (f <$> l) start end_ = f <$> slice l start end_.
Proof. unfold slice. by rewrite fmap_take, fmap_drop. Qed.

Lemma slice_length_le {A} (l : list A) (start end_ : Z) :
  0 <= start -> (length (slice l start end_) <= Z.to_nat end_)%nat.
Proof. intros Hs. unfold slice. rewrite length_take. lia. Qed.

Lemma field_Ok {A} (ds : dataset) (name : string) (proj : record -> A) (column : list A) :
  field ds name proj = Ok column -> column = proj <$> rows ds.
Proof. unfold field. case_bool_decide; by intros [=]. Qed.

Lemma decoded_Ok ds name proj start end_ o :
  decoded ds name proj start end_ = Ok o ->
  exists a, o = PArray (VStr <$> a)
            /\ Forall2 (fun r x => decode (proj r) = Ok x) (slice (rows ds) start end_) a.
Proof.
  unfold decoded. intros H. inv_result. apply field_Ok in Hx as ->.
  exists x0. split; [done|]. unfold char_decode in Hx0.
  apply mapM_result_Ok in Hx0. rewrite slice_fmap in Hx0. by apply Forall2_fmap_l in Hx0.
Qed.

Lemma decoded_or_nil_Ok ds name proj start end_ o :
  decoded_or_nil ds name proj start end_ = Ok o ->
  (exists a, o = PArray (VStr <$> a)
             /\ Forall2 (fun r x => decode (proj r) = Ok x) (slice (rows ds) start end_) a)
  \/ (exists e, decoded ds name proj start end_ = Raise e /\ is_ValueError e = true
                /\ o = PArray (full end_ (VStr nil_uuid))).
Proof.
  unfold decoded_or_nil, try_except_ValueError.
  destruct (decoded ds name proj start end_) as [o'|e] eqn:Hd.
  - intros [= <-]. left. by apply decoded_Ok in Hd.
  - destruct (is_ValueError e) eqn:He; [|done]. intros [= <-]. right. by exists e.
Qed.

Lemma vectorize_Ok {A B} (f : A -> result B) (a : list A) (b : list B) :
  vectorize f a = Ok b -> a <> [] /\ Forall2 (fun x y => f x = Ok y) a b.
Proof.
  destruct a as [|x a]; [done|]. intros H. split; [done|]. by apply mapM_result_Ok.
Qed.

Lemma scaled_Ok ds name proj start end_ o :
  scaled ds name proj start end_ = Ok o ->
  o = PArray ((fun r => VFloat (divide (proj r) 100000000)) <$> slice (rows ds) start end_).
Proof.
  unfold scaled. intros H. inv_result. apply field_Ok in Hx as ->.
  apply vectorize_Ok in Hx0 as [_ Hx0]. rewrite slice_fmap in Hx0.
  apply Forall2_fmap_l in Hx0. f_equal.
  assert (x0 = (fun r => divide (proj r) 100000000) <$> slice (rows ds) start end_) as ->.
  { induction Hx0 as [|r y sl ys Hy _ IH]; [done|]. simpl in Hy. injection Hy as <-.
    rewrite IH. done. }
  by rewrite <-list_fmap_compose.
Qed.

Lemma timestamps_Ok rt ds start end_ o :
  timestamps rt ds start end_ = Ok o ->
  exists a, o = PArray (VStr <$> a)
            /\ Forall2 (fun r x => datetime_str rt (float_of_int (time r) / 1e6)%float = Ok x)
                 (slice (rows ds) start end_) a.
Proof.
  unfold timestamps. intros H. inv_result. apply field_Ok in Hx as ->.
  exists x0. split; [done|]. apply vectorize_Ok in Hx0 as [_ Hx0].
  rewrite slice_fmap, !Forall2_fmap_l in Hx0.
  eapply Forall2_impl; [exact Hx0|]. by intros r y.
Qed.

(** *** Rows of a chunk *)

Lemma covers_Forall2 {A B} (P : A -> B -> Prop) (sl : list A) (a : list B) :
  Forall2 P sl a -> covers P sl a.
Proof.
  intros H i r Hr. destruct (Forall2_lookup_l _ _ _ _ _ H Hr) as (x & ? & ?). eauto.
Qed.

Lemma covers_fmap {A B C} (P : A -> C -> Prop) (f : B -> C) (sl : list A) (a : list B) :
  covers (fun r x => P r (f x)) sl a -> covers P sl (f <$> a).
Proof.
  intros H i r Hr. destruct (H i r Hr) as (x & Hx & ?). exists (f x).
  by rewrite list_lookup_fmap, Hx.
Qed.

Lemma covers_fmap_self {A B} (f : A -> B) (sl : list A) :
  covers (fun r x => x = f r) sl (f <$> sl).
Proof. intros i r Hr. exists (f r). by rewrite list_lookup_fmap, Hr. Qed.

Lemma covers_full {A} (sl : list A) (n : Z) (v : value) :
  (length sl <= Z.to_nat n)%nat -> covers (fun _ x => x = v) sl (full n v).
Proof.
  intros Hn i r Hr. exists v. split; [|done]. apply lookup_replicate_2.
  apply lookup_lt_Some in Hr. lia.
Qed.

Lemma covers_impl {A B} (P Q : A -> B -> Prop) (sl : list A) (a : list B) :
  (forall r x, P r x -> Q r x) -> covers P sl a -> covers Q sl a.
Proof. intros HPQ H i r Hr. destruct (H i r Hr) as (x & ? & ?). eauto. Qed.

Lemma covers_length {A B} (P : A -> B -> Prop) (sl : list A) (a : list B) :
  covers P sl a -> (length sl <= length a)%nat.
Proof.
  intros H. destruct (decide (length sl = 0%nat)) as [|Hne]; [lia|].
  destruct (lookup_lt_is_Some_2 sl (length sl - 1)) as [r Hr]; [lia|].
  destruct (H _ _ Hr) as (x & Hx & _). apply lookup_lt_Some in Hx. lia.
Qed.

Lemma foldr_min_ge {A} (n m : nat) (rest : list (list A)) :
  (n <= m)%nat -> Forall (fun a => (n <= length a)%nat) rest ->
  (n <= foldr (fun b k => Nat.min (length b) k) m rest)%nat.
Proof. intros Hm. induction 1; simpl; lia. Qed.

Lemma foldr_min_le_init {A} (m : nat) (rest : list (list A)) :
  (foldr (fun b k => Nat.min (length b) k) m rest <= m)%nat.
Proof. induction rest; simpl; lia. Qed.

Lemma foldr_min_le_elem {A} (m : nat) (rest : list (list A)) (b : list A) :
  b ∈ rest -> (foldr (fun b k => Nat.min (length b) k) m rest <= length b)%nat.
Proof. induction 1; simpl; lia. Qed.

Lemma shortest_eq {A} (arrays : list (list A)) (n : nat) :
  Forall (fun a => (n <= length a)%nat) arrays ->
  Exists (fun a => length a = n) arrays ->
  shortest arrays = n.
Proof.
  destruct arrays as [|a rest]; [by inversion 2|]. simpl.
  intros Hall Hex. apply Forall_cons in Hall as [Ha Hall].
  pose proof (foldr_min_ge n (length a) rest Ha Hall).
  apply Exists_cons in Hex as [Hex|Hex].
  - pose proof (foldr_min_le_init (length a) rest). lia.
  - apply Exists_exists in Hex as (b & Hb & Hlen).
    pose proof (foldr_min_le_elem (length a) rest b Hb). lia.
Qed.

(** The rows [zip] builds from arrays that each cover the elements of a
    slice, one of them of the slice's own length: one row for each
    element, its fields related to the element array by array. *)
Lemma zip_star_covers {A B} (Ps : list (A -> B -> Prop)) (sl : list A) (arrays : list (list B)) :
  Forall2 (fun P a => covers P sl a) Ps arrays ->
  Exists (fun a => length a = length sl) arrays ->
  Forall2 (fun r row => Forall2 (fun P x => P r x) Ps row) sl (zip_star arrays).
Proof.
  intros Hcov Hex. apply Forall2_same_length_lookup. split.
  - rewrite zip_star_length. symmetry. apply shortest_eq; [|done].
    clear Hex. induction Hcov as [|P a Ps arrays HP _ IH]; constructor; [|done].
    by eapply covers_length.
  - intros i r row Hr Hrow. apply zip_star_lookup in Hrow as [_ Hrow].
    clear Hex. revert row Hrow.
    induction Hcov as [|P a Ps arrays HP _ IH]; intros row; inversion 1; subst;
      constructor; [|by apply IH].
    destruct (HP i r Hr) as (x' & Hx' & ?). congruence.
Qed.

Ltac eval_loads H :=
  cbv [mapM load assign String.eqb Ascii.eqb Bool.eqb andb mbind mret result_bind result_ret] in H.

Lemma covers_decoded {A} (P : A -> string -> Prop) (sl : list A) (a : list string) :
  Forall2 P sl a -> covers (fun r x => exists s, P r s /\ x = VStr s) sl (VStr <$> a).
Proof.
  intros H. apply covers_fmap. apply covers_Forall2.
  eapply Forall2_impl; [exact H|]. intros r x ?. by exists x.
Qed.

Lemma covers_decoded_or_nil ds name proj start end_ o :
  0 <= start ->
  decoded_or_nil ds name proj start end_ = Ok o ->
  exists a, o = PArray a
    /\ covers (fun r x => exists s, (decode (proj r) = Ok s \/ s = nil_uuid) /\ x = VStr s)
         (slice (rows ds) start end_) a.
Proof.
  intros Hstart H. apply decoded_or_nil_Ok in H as [(a & -> & Ha)|(e & _ & _ & ->)].
  - exists (VStr <$> a). split; [done|]. apply covers_decoded.
    eapply Forall2_impl; [exact Ha|]. intros r x ?. by left.
  - exists (full end_ (VStr nil_uuid)). split; [done|].
    eapply covers_impl; [|apply covers_full; by apply slice_length_le].
    intros r x ->. exists nil_uuid. split; [by right|done].
Qed.

Ltac eval_csv H :=
  cbv [arrays_to_CSV_string mapM iter mbind mret result_bind result_ret] in H;
  fold (@fmap list _) in H.

(** Runs [gather] and [write_arrays] for a table name that is known. *)
Ltac run_chunk Hg Hw :=
  unfold gather in Hg;
  match type of Hg with
  | context [drop_chars 10 ?t] =>
      let v := eval vm_compute in (drop_chars 10 t) in
      change (drop_chars 10 t) with v in Hg
  end;
  eval_conds Hg; cbv iota beta zeta in Hg;
  unfold write_arrays, write_if in Hw; eval_conds Hw; cbv iota beta zeta in Hw;
  inv_result;
  repeat match goal with
  | H : mapM (load _) _ = Ok _ |- _ => eval_loads H; injection H as <-
  | H : decoded _ _ _ _ _ = Ok _ |- _ => apply decoded_Ok in H as (? & -> & H)
  | H : timestamps _ _ _ _ = Ok _ |- _ => apply timestamps_Ok in H as (? & -> & H)
  | H : field _ _ _ = Ok _ |- _ => apply field_Ok in H as ->
  | H : scaled _ _ _ _ _ = Ok _ |- _ => apply scaled_Ok in H as ->
  | H : decoded_or_nil _ _ _ _ _ = Ok _ |- _ =>
      apply covers_decoded_or_nil in H as (? & -> & H); [|done]
  | H : arrays_to_CSV_string _ _ = Ok _ |- _ => eval_csv H; injection H as <-
  end;
  repeat match goal with
  | |- context [zip_rows ?a ?rest] => change (zip_rows a rest) with (zip_star (a :: rest))
  end.

Lemma chunk_match rt ds pid start end_ loc loc' sio :
  0 <= start ->
  gather rt ds "tick_data_match" pid start end_ loc = Ok loc' ->
  write_arrays rt "tick_data_match" loc' = Ok sio ->
  exists out, sio = csv_text rt out
    /\ Forall2 (executed_row rt pid) (slice (rows ds) start end_) out.
Proof.
  intros Hstart Hg Hw. run_chunk Hg Hw.
  lazymatch goal with |- context [zip_star ?arrays] => exists (zip_star arrays) end.
  split; [reflexivity|].
  rewrite slice_fmap.
  set (sl := slice (rows ds) start end_) in *.
  eapply Forall2_impl.
  - apply (zip_star_covers
             [fun _ x => x = VInt pid;
              fun r x => exists s, decode (side r) = Ok s /\ x = VStr s;
              fun r x => exists s, datetime_str rt (float_of_int (time r) / 1e6)%float = Ok s
                                   /\ x = VStr s;
              fun r x => x = price r;
              fun r x => x = VFloat (divide (size r) 100000000);
              fun r x => exists s, (decode (maker_order_id r) = Ok s \/ s = nil_uuid) /\ x = VStr s;
              fun r x => exists s, (decode (taker_order_id r) = Ok s \/ s = nil_uuid) /\ x = VStr s]).
    + repeat constructor; try done.
      * apply covers_full. by apply slice_length_le.
      * by apply covers_decoded.
      * by apply covers_decoded.
      * apply covers_fmap_self.
      * apply covers_fmap_self.
    + do 3 apply Exists_cons_tl. apply Exists_cons_hd. by rewrite length_fmap.
  - intros r row Hrow. cbv beta in Hrow.
    repeat match goal with
    | H : Forall2 _ (_ :: _) _ |- _ => inversion H; clear H; subst
    | H : Forall2 _ [] _ |- _ => inversion H; clear H; subst
    | H : exists _, _ |- _ => destruct H as (? & ? & ?); subst
    end.
    eexists _, _, _, _. repeat split; try done.
Qed.

(** *** Kinds that the script does not know *)









(** *** The product table *)

Lemma same_key_spec symbol currency exchange r :
  same_key symbol currency exchange r = true <->
  p_symbol r = symbol /\ p_currency r = currency /\ p_exchange r = exchange.
Proof.
  unfold same_key. rewrite !andb_true_iff, !String.eqb_eq. tauto.
Qed.

Lemma find_filter {A} (f : A -> bool) (l : list A) :
  List.find f l = head (List.filter f l).
Proof. induction l as [|x l IH]; simpl; [done|]. by destruct (f x). Qed.

Lemma filter_nil_existsb {A} (f : A -> bool) (l : list A) :
  existsb f l = false -> List.filter f l = [].
Proof.
  induction l as [|x l IH]; simpl; [done|].
  destruct (f x); simpl; [done|]. exact IH.
Qed.

Lemma insert_product_spec symbol currency name exchange db :
  wf_db db ->
  let db' := insert_product symbol currency name exchange db in
  wf_db db'
  /\ (exists r, List.filter (same_key symbol currency exchange) (product db') = [r]
                /\ 0 < p_unique_id r)
  /\ file_log db' = file_log db /\ file_log_seq db' = file_log_seq db
  /\ copied db' = copied db
  /\ (List.filter (same_key symbol currency exchange) (product db) <> [] ->
        product db' = product db).
Proof.
  intros (Hseq & Hids & Huniq). unfold insert_product. cbv zeta.
  destruct (existsb _ (product db)) eqn:Hconf; simpl.
  - assert (exists r, List.filter (same_key symbol currency exchange) (product db) = [r]
                      /\ 0 < p_unique_id r) as Hr.
    { apply existsb_exists in Hconf as (r & Hr & Hc).
      apply list_elem_of_In in Hr.
      pose proof (proj1 (Forall_forall _ _) Hids r Hr) as Hid. cbv beta in Hid.
      apply orb_true_iff in Hc as [Hc|Hc]; [apply Z.eqb_eq in Hc; lia|].
      specialize (Huniq symbol currency exchange).
      destruct (List.filter (same_key symbol currency exchange) (product db)) as [|r' [|r'' l]] eqn:Hf.
      - assert (List.In r (List.filter (same_key symbol currency exchange) (product db))) as Hin
          by (apply filter_In; split; [by apply list_elem_of_In|done]).
        by rewrite Hf in Hin.
      - exists r'. split; [done|].
        assert (List.In r' (List.filter (same_key symbol currency exchange) (product db))) as Hin
          by (rewrite Hf; by left).
        apply filter_In in Hin as [Hin _]. apply list_elem_of_In in Hin.
        pose proof (proj1 (Forall_forall _ _) Hids r' Hin) as Hid'. cbv beta in Hid'. lia.
      - simpl in Huniq. lia. }
    repeat split; simpl; try done.
    + lia.
    + eapply Forall_impl; [exact Hids|]. simpl. intros; lia.
  - apply filter_nil_existsb in Hconf as Hnone.
    assert (List.filter (same_key symbol currency exchange) (product db) = []) as Hnokey.
    { clear -Hconf. induction (product db) as [|r l IH]; simpl in *; [done|].
      apply orb_false_iff in Hconf as [Hr Hl]. apply orb_false_iff in Hr as [_ ->].
      by apply IH. }
    repeat split; simpl; try done.
    + lia.
    + apply Forall_app. split.
      * eapply Forall_impl; [exact Hids|]. simpl. intros; lia.
      * repeat constructor; simpl; lia.
    + intros s c e. rewrite List.filter_app, length_app. simpl.
      destruct (same_key s c e _) eqn:Hk; simpl; [|specialize (Huniq s c e); lia].
      apply same_key_spec in Hk as (<- & <- & <-). simpl. rewrite Hnokey. simpl. lia.
    + eexists. rewrite List.filter_app, Hnokey. simpl.
      assert (same_key symbol currency exchange
                {| p_unique_id := product_seq db; p_symbol := symbol; p_currency := currency;
                   p_name := name; p_exchange := exchange |} = true) as ->
        by by apply same_key_spec.
      split; [done|]. simpl. lia.
Qed.

Lemma literal_Ok (v v' : string) : literal v = Ok v' -> v' = v /\ occurs "'" v = false.
Proof. unfold literal. destruct (occurs "'" v); [done|]. by intros [= <-]. Qed.

Lemma literal_clean (v : string) : occurs "'" v = false -> literal v = Ok v.
Proof. unfold literal. by intros ->. Qed.

Lemma insert_product_id_Ok symbol currency name exchange db db' :
  insert_product_id symbol currency name exchange db = Ok db' ->
  db' = insert_product symbol currency name exchange db
  /\ occurs "'" symbol = false /\ occurs "'" currency = false
  /\ occurs "'" name = false /\ occurs "'" exchange = false.
Proof.
  unfold insert_product_id. intros H.
  apply bind_Ok in H as (v1 & H1 & H). apply literal_Ok in H1 as [-> ?].
  apply bind_Ok in H as (v2 & H2 & H). apply literal_Ok in H2 as [-> ?].
  apply bind_Ok in H as (v3 & H3 & H). apply literal_Ok in H3 as [-> ?].
  apply bind_Ok in H as (v4 & H4 & H). apply literal_Ok in H4 as [-> ?].
  by apply mret_Ok in H as <-.
Qed.

Lemma insert_product_id_clean symbol currency name exchange db :
  occurs "'" symbol = false -> occurs "'" currency = false ->
  occurs "'" name = false -> occurs "'" exchange = false ->
  insert_product_id symbol currency name exchange db
  = Ok (insert_product symbol currency name exchange db).
Proof.
  intros Hs Hc Hn He. unfold insert_product_id.
  by rewrite (literal_clean _ Hs), bind_ret_l, (literal_clean _ Hc), bind_ret_l,
    (literal_clean _ Hn), bind_ret_l, (literal_clean _ He), bind_ret_l.
Qed.

(** The lookup, for values that the statement holds as written. *)
Lemma populate_clean h5 group table symbol currency exchange db ds :
  h5_getitem h5 group table = Ok ds ->
  occurs "'" symbol = false -> occurs "'" currency = false -> occurs "'" exchange = false ->
  populate_product_table h5 group table symbol currency exchange db
  = Ok (if 0 <? len (rows ds)
        then match select_product symbol currency exchange db with
             | Some r => p_unique_id r
             | None => 0
             end
        else 0).
Proof.
  intros Hds Hs Hc He. unfold populate_product_table.
  rewrite Hds, bind_ret_l. destruct (0 <? len (rows ds)); [|done].
  rewrite (literal_clean _ Hs), bind_ret_l, (literal_clean _ Hc), bind_ret_l,
    (literal_clean _ He), bind_ret_l.
  by destruct (select_product _ _ _ _).
Qed.

(** Without rows nothing is looked up. *)
Lemma populate_empty h5 group table symbol currency exchange db ds :
  h5_getitem h5 group table = Ok ds -> rows ds = [] ->
  populate_product_table h5 group table symbol currency exchange db = Ok 0.
Proof.
  intros Hds Hrows. unfold populate_product_table. by rewrite Hds, bind_ret_l, Hrows.
Qed.

Lemma populate_spec h5 group table symbol currency exchange db ds r :
  h5_getitem h5 group table = Ok ds ->
  occurs "'" symbol = false -> occurs "'" currency = false -> occurs "'" exchange = false ->
  List.filter (same_key symbol currency exchange) (product db) = [r] ->
  populate_product_table h5 group table symbol currency exchange db
  = Ok (if 0 <? len (rows ds) then p_unique_id r else 0).
Proof.
  intros Hds Hs Hc He Hr. rewrite (populate_clean _ _ _ _ _ _ _ ds) by done.
  unfold select_product. by rewrite find_filter, Hr.
Qed.

(** What the insertion leaves for the triple: the row that was there, or
    a new one with the next value of the sequence. *)
Lemma insert_product_row symbol currency name exchange db :
  wf_db db ->
  let db' := insert_product symbol currency name exchange db in
  match select_product symbol currency exchange db with
  | Some r0 =>
      List.filter (same_key symbol currency exchange) (product db') = [r0]
      /\ product db' = product db
  | None =>
      List.filter (same_key symbol currency exchange) (product db')
      = [{| p_unique_id := product_seq db; p_symbol := symbol; p_currency := currency;
            p_name := name; p_exchange := exchange |}]
      /\ product db'
         = (product db ++ [{| p_unique_id := product_seq db; p_symbol := symbol;
                              p_currency := currency; p_name := name;
                              p_exchange := exchange |}])%list
  end.
Proof.
  intros Hwf db'.
  destruct (insert_product_spec symbol currency name exchange db Hwf)
    as (_ & (r & Hr & _) & _ & _ & _ & Hsame).
  fold db' in Hr, Hsame. unfold select_product. rewrite find_filter.
  destruct (List.filter (same_key symbol currency exchange) (product db)) as [|r0 l] eqn:Hf.
  - simpl. subst db'. unfold insert_product in *. cbv zeta in *.
    destruct Hwf as (Hseq & Hids & _).
    assert (existsb (fun r1 => (p_unique_id r1 =? product_seq db)
                               || same_key symbol currency exchange r1) (product db) = false)
      as Hconf.
    { apply not_true_is_false. intros Hex. apply existsb_exists in Hex as (r1 & Hin & Hc).
      apply orb_true_iff in Hc as [Hc|Hc].
      - apply list_elem_of_In in Hin.
        pose proof (proj1 (Forall_forall _ _) Hids r1 Hin) as Hid. cbv beta in Hid.
        apply Z.eqb_eq in Hc. lia.
      - assert (List.In r1 (List.filter (same_key symbol currency exchange) (product db)))
          as Hin' by (by apply filter_In).
        by rewrite Hf in Hin'. }
    rewrite Hconf. cbn [product]. split; [|done].
    rewrite List.filter_app, Hf. simpl.
    assert (same_key symbol currency exchange
              {| p_unique_id := product_seq db; p_symbol := symbol; p_currency := currency;
                 p_name := name; p_exchange := exchange |} = true) as ->
      by by apply same_key_spec.
    done.
  - cbn [head]. specialize (Hsame ltac:(done)). rewrite Hsame in Hr |- *.
    split; [|done]. rewrite Hf in Hr. injection Hr as <- ->. done.
Qed.


(** *** One table of a file *)

Lemma emitted_rows_left rt ds db_table pid c :
  emitted rt ds db_table pid c -> 0 < len (rows ds).
Proof.
  intros (count & start & end_ & loc & loc' & Hcount & Hb & _).
  apply bounds_Some in Hb as (-> & Hlt & _). unfold chunk in *. lia.
Qed.


Lemma process_table_Ok rt h5 group s table s' :
  process_table rt h5 group s table = Ok s' ->
  exists symbol currency symbol_name product_id db',
    unpack2 (split "_" table) = Ok (symbol, currency)
    /\ getitem symbol_name_lookup symbol = Ok symbol_name
    /\ occurs "'" symbol = false /\ occurs "'" currency = false
    /\ insert_product_id symbol currency symbol_name "Coinbase Pro" (conn s)
       = Ok (insert_product symbol currency symbol_name "Coinbase Pro" (conn s))
    /\ populate_product_table h5 group table symbol currency "Coinbase Pro"
         (insert_product symbol currency symbol_name "Coinbase Pro" (conn s)) = Ok product_id
    /\ assemble_data_as_string rt h5 group table ("tick_data_" +:+ group) product_id
         (insert_product symbol currency symbol_name "Coinbase Pro" (conn s)) = Ok db'
    /\ s' = {| conn := db'; durable := db';
               stdout := stdout s ++ [Loading table group; TimeTaken] |}.
Proof.
  unfold process_table. intros H.
  apply bind_Ok in H as ([symbol currency] & Hu & H).
  apply bind_Ok in H as (symbol_name & Hn & H).
  apply bind_Ok in H as (db1 & Hi & H).
  apply bind_Ok in H as (product_id & Hp & H).
  apply bind_Ok in H as (db' & Ha & H).
  apply mret_Ok in H as <-.
  pose proof Hi as Hi'. apply insert_product_id_Ok in Hi' as (-> & Hs & Hc & _).
  exists symbol, currency, symbol_name, product_id, db'.
  repeat split; try done.
  unfold print, commit, execute; simpl. by rewrite <-app_assoc.
Qed.

Lemma for_each_raises {S X} (body : S -> X -> result S) (xs : list X) (x : X) :
  x ∈ xs -> (forall s, exists e, body s x = Raise e) ->
  forall s, exists e, for_each body s xs = Raise e.
Proof.
  intros Hx Hbody. induction xs as [|y xs IH]; intros s; [by apply elem_of_nil in Hx|].
  simpl. apply elem_of_cons in Hx as [<-|Hx].
  - destruct (Hbody s) as [e ->]. by exists e.
  - destruct (body s y) as [s1|e]; [by apply IH|by exists e].
Qed.



(** *** The ledger *)

Lemma like_self (p : string) : occurs "\" p = false -> like p p = true.
Proof.
  induction p as [|c p IH]; [done|]. simpl. intros H.
  apply orb_false_iff in H as [Hc Hp]. specialize (IH Hp).
  destruct (Ascii.eqb c "%") eqn:E1.
  { apply orb_true_iff. right. destruct p; by rewrite IH. }
  destruct (Ascii.eqb c "_") eqn:E2; [done|].
  rewrite Hc. by rewrite Ascii.eqb_refl.
Qed.

Lemma like_any (p prefix text : string) :
  like p text = true -> like (String "%" p) (prefix +:+ text) = true.
Proof.
  intros H. induction prefix as [|c prefix IH].
  - change (EmptyString +:+ text) with text. simpl. destruct text; by rewrite H.
  - change (String c prefix +:+ text) with (String c (prefix +:+ text)).
    simpl in *. rewrite IH. apply orb_true_r.
Qed.

Lemma select_file_log_finds (name : string) (db : database) (row : file_log_row) (prefix : string) :
  row ∈ file_log db ->
  f_filename row = prefix +:+ name ->
  occurs "\" name = false ->
  exists hit, select_file_log name db = Some hit /\ hit ∈ file_log db.
Proof.
  intros Hrow Hname Hclean. unfold select_file_log.
  destruct (List.find _ (file_log db)) as [hit|] eqn:Hfind.
  - exists hit. split; [done|]. apply find_some in Hfind as [Hin _]. by apply list_elem_of_In.
  - exfalso. apply list_elem_of_In in Hrow.
    pose proof (find_none _ _ Hfind row Hrow) as Hno. cbv beta in Hno.
    rewrite Hname, like_any in Hno; [done|]. by apply like_self.
Qed.

Lemma occurs_app (c : ascii) (a b : string) :
  occurs c (a +:+ b) = occurs c a || occurs c b.
Proof.
  induction a as [|x a IH]; [done|].
  change (String x a +:+ b) with (String x (a +:+ b)). simpl. by rewrite IH, orb_assoc.
Qed.

Lemma path_clean (file_in_folder : string) :
  occurs "'" file_in_folder = false ->
  literal (hdf_folder +:+ "/" +:+ file_in_folder) = Ok (hdf_folder +:+ "/" +:+ file_in_folder).
Proof.
  intros H. apply literal_clean. rewrite !occurs_app, H. reflexivity.
Qed.

(** The processing of a file whose name the two statements hold as
    written. *)
Lemma process_file_clean rt file_in_folder h5 now s :
  occurs "'" file_in_folder = false ->
  process_file rt file_in_folder h5 now s
  = match select_file_log file_in_folder (conn s) with
    | None =>
        time ← literal now;
        for_each (process_group rt h5)
          (execute (insert_file_log (hdf_folder +:+ "/" +:+ file_in_folder) time)
             (print (Processing file_in_folder) s)) h5
    | Some hit => Ok (print (AlreadyIngested (f_filename hit) (f_time hit)) s)
    end.
Proof.
  intros H. unfold process_file. rewrite (literal_clean _ H), bind_ret_l.
  destruct (select_file_log _ _); [done|]. by rewrite (path_clean _ H), bind_ret_l.
Qed.


(** When the ledger holds a row whose filename ends with the name of the
    file, and the name has no backslash and no quote character,
    processing the file raises nothing, prints the notice for a row of
    the ledger, and changes nothing else: the tables, the ledger among
    them, stay as they were, and no bulk load is made. *)
Lemma recorded_file_is_skipped
    (rt : runtime) (file_in_folder : string) (h5 : h5file) (now : string)
    (s : session) (row : file_log_row) (prefix : string) :
  row ∈ file_log (conn s) ->
  f_filename row = prefix +:+ file_in_folder ->
  occurs "\" file_in_folder = false ->
  occurs "'" file_in_folder = false ->
  exists (hit : file_log_row) (s' : session),
    process_file rt file_in_folder h5 now s = Ok s'
    /\ hit ∈ file_log (conn s)
    /\ stdout s' = (stdout s ++ [AlreadyIngested (f_filename hit) (f_time hit)])%list
    /\ conn s' = conn s
    /\ durable s' = durable s.
Proof.
  intros Hrow Hname Hclean Hquote.
  destruct (select_file_log_finds _ _ _ _ Hrow Hname Hclean) as (hit & Hhit & Hin).
  exists hit. eexists. rewrite process_file_clean, Hhit by done. done.
Qed.


(** *** What a run keeps *)




(** *** The nil identifier *)

Lemma slice_replicate {A} (n : Z) (x : A) (start end_ : Z) :
  0 <= start -> start <= n -> n <= end_ ->
  slice (replicate (Z.to_nat n) x) start end_ = replicate (Z.to_nat (n - start)) x.
Proof.
  intros. unfold slice. rewrite drop_replicate, take_replicate. f_equal. lia.
Qed.

Lemma len_replicate {A} (n : Z) (x : A) : 0 <= n -> len (replicate (Z.to_nat n) x) = n.
Proof. intros. unfold len. rewrite length_replicate. lia. Qed.

(** C4. On an order table of 1,000,001 rows whose identifiers do not
    decode, the second turn of the loop has the bounds (1000000, 2000000)
    and a chunk of one element, and the array that replaces the
    identifiers holds 2,000,000 nil identifiers. *)
Theorem nil_fallback_past_first_chunk :
  bounds (len (rows Example.long_open)) 1 = Some (1000000, 2000000)
  /\ len (slice (rows Example.long_open) 1000000 2000000) = 1
  /\ decoded_or_nil Example.long_open "order_id" order_id 1000000 2000000
     = Ok (PArray (full 2000000 (VStr nil_uuid)))
  /\ len (full 2000000 (VStr nil_uuid)) = 2000000.
Proof.
  assert (len (rows Example.long_open) = 1000001) as Hlen by (apply len_replicate; lia).
  split; [|split; [|split]].
  - rewrite Hlen. reflexivity.
  - unfold Example.long_open, rows. rewrite slice_replicate by lia. reflexivity.
  - unfold decoded_or_nil, decoded, field.
    rewrite bool_decide_eq_true_2 by (unfold Example.long_open, dtype; repeat constructor).
    rewrite bind_ret_l. unfold Example.long_open at 1, rows.
    rewrite fmap_replicate, slice_replicate by lia.
    reflexivity.
  - apply len_replicate. lia.
Qed.

(** *** The fact rows *)

(** C5. When [assemble_data_as_string] returns for the table of executed
    trades, every bulk load it made names the columns product_id, side,
    time, price, size, maker_order_id, taker_order_id, in that order, and
    its text is the rows of one chunk: one row for each element of the
    chunk, in order, each made of exactly these seven fields in this
    order. *)
Theorem executed_rows_follow_schema
    (rt : runtime) (h5 : h5file) (group table : string) (product_id : Z)
    (db db' : database) :
  assemble_data_as_string rt h5 group table "tick_data_match" product_id db = Ok db' ->
  drop 1 <$> db_table_columns !! "match"
    = Some ["product_id"; "side"; "time"; "price"; "size"; "maker_order_id"; "taker_order_id"]
  /\ exists (ds : dataset) (calls : list copy_call),
       h5_getitem h5 group table = Ok ds
       /\ db' = loaded db calls
       /\ Forall
            (fun c =>
               cc_sql c = "COPY tick_data_match (product_id, side, time, price, size, maker_order_id, taker_order_id) FROM STDIN WITH CSV HEADER"
               /\ exists count start end_ out,
                    0 <= count
                    /\ bounds (len (rows ds)) count = Some (start, end_)
                    /\ cc_file c = csv_text rt out
                    /\ Forall2 (executed_row rt product_id) (slice (rows ds) start end_) out)
            calls.
Proof.
  intros H. split; [vm_compute; reflexivity|].
  apply assemble_emits in H as (ds & calls & Hds & -> & Hcalls).
  exists ds, calls. repeat split; try done.
  eapply Forall_impl; [exact Hcalls|]. intros c Hc. split.
  - destruct Hc as (_ & _ & _ & _ & _ & _ & _ & _ & _ & Hs).
    assert (copy_statement "tick_data_match" = Ok "COPY tick_data_match (product_id, side, time, price, size, maker_order_id, taker_order_id) FROM STDIN WITH CSV HEADER") as E
      by (vm_compute; reflexivity).
    rewrite E in Hs. by injection Hs as <-.
  - destruct Hc as (count & start & end_ & loc & loc' & Hcount & Hb & Hg & Hw & _).
    assert (0 <= start) as Hstart.
    { apply bounds_Some in Hb as (-> & _ & _). unfold chunk. lia. }
    destruct (chunk_match rt ds product_id start end_ loc loc' _ Hstart Hg Hw) as (out & ? & ?).
    by exists count, start, end_, out.
Qed.

(** ** Further properties of the script *)

(** *** The loop, for every number of rows *)

Lemma slice_length {A} (l : list A) (start end_ : Z) :
  0 <= start -> len (slice l start end_) = Z.max 0 (Z.min (end_ - start) (len l - start)).
Proof.
  intros Hs. unfold slice, len. rewrite length_take, length_drop. lia.
Qed.

Lemma turns_le_chunks (R : Z) : 0 <= R -> turns R <= chunks R + 1.
Proof.
  intros HR. unfold turns, chunks, round_half_even, chunk.
  pose proof (Z.div_mod (2 * R + 1000000) (2 * 1000000) ltac:(lia)) as Hdm.
  pose proof (Z.mod_pos_bound (2 * R + 1000000) (2 * 1000000) ltac:(lia)) as Hm.
  pose proof (Z.div_mod (R + 1000000 - 1) 1000000 ltac:(lia)).
  pose proof (Z.mod_pos_bound (R + 1000000 - 1) 1000000 ltac:(lia)).
  repeat case_match; lia.
Qed.

(** X1. The loop reads every row once. Its ranges start at the multiples
    of the chunk, one for each started chunk of rows and none for a
    dataset without rows; the loop makes at most one turn more than there
    are chunks, and that turn has no range. Each range reads at least one
    row and at most a chunk of them, and the slices read, one after the
    other, are the dataset. *)
Theorem loop_reads_each_row_once {A} (l : list A) :
  let slices := (fun '(start, end_) => slice l start end_) <$> ranges (len l) in
  concat slices = l
  /\ (ranges (len l)).*1 = (fun c => c * chunk) <$> seqZ 0 (chunks (len l))
  /\ chunks (len l) <= turns (len l) <= chunks (len l) + 1
  /\ Forall (fun sl => 1 <= len sl <= chunk) slices
  /\ (l = [] -> ranges (len l) = []).
Proof.
  cbv zeta. assert (0 <= len l) as HR by (unfold len; lia).
  split; [apply slices_cover|]. split; [|split; [|split]].
  - rewrite ranges_chunks by done. rewrite <-list_fmap_compose. done.
  - pose proof (chunks_le_turns _ HR). pose proof (turns_le_chunks _ HR). lia.
  - rewrite ranges_chunks by done. rewrite <-list_fmap_compose.
    apply Forall_fmap, Forall_seqZ. intros c Hc. unfold compose. cbv beta iota.
    assert (c * chunk < len l) as Hlt by (apply chunks_spec; lia).
    rewrite slice_length by (unfold chunk; lia).
    destruct (Z.ltb_spec (len l) chunk); unfold chunk in *; lia.
  - intros ->. reflexivity.
Qed.

(** *** The bulk loads of a table *)

Lemma omap_cons' {A B} (f : A -> option B) (x : A) (l : list A) :
  omap f (x :: l) = match f x with Some y => y :: omap f l | None => omap f l end.
Proof. done. Qed.

Lemma loop_calls rt ds db_table pid R xs st st' :
  for_each (chunk_body rt ds db_table pid R) st xs = Ok st' ->
  exists calls, st'.2 = loaded st.2 calls
    /\ Forall2 (emitted_at rt ds db_table pid) (omap (bounds R) xs) calls.
Proof.
  revert st. induction xs as [|x xs IH]; intros st H; cbn [for_each] in H.
  - injection H as <-. exists []. split; [by rewrite loaded_nil|constructor].
  - apply bind_Ok in H as (st1 & H1 & H).
    apply IH in H as (calls & Hst & Hcalls).
    rewrite omap_cons'. unfold chunk_body in H1.
    destruct (bounds R x) as [[start end_]|] eqn:Hb.
    + apply bind_Ok in H1 as (loc' & Hg & H1).
      apply bind_Ok in H1 as (sio & Hw & H1).
      apply bind_Ok in H1 as (sql & Hs & H1).
      apply bind_Ok in H1 as (db1 & Hc & [= <-]). apply copy_expert_Ok in Hc as [_ ->].
      exists ({| cc_sql := sql; cc_file := sio |} :: calls). split.
      * rewrite Hst. simpl. unfold loaded, copy_rows. simpl. by rewrite <-app_assoc.
      * constructor; [|done]. by exists st.1, loc'.
    + injection H1 as <-. by exists calls.
Qed.

(** The bulk loads of [assemble_data_as_string], one for each range of
    the loop, in order. *)
Lemma assemble_calls rt h5 group table db_table pid db db' :
  assemble_data_as_string rt h5 group table db_table pid db = Ok db' ->
  exists ds calls,
    h5_getitem h5 group table = Ok ds
    /\ db' = loaded db calls
    /\ Forall2 (emitted_at rt ds db_table pid) (ranges (len (rows ds))) calls.
Proof.
  unfold assemble_data_as_string. intros H.
  apply bind_Ok in H as (ds & Hds & H).
  apply bind_Ok in H as (st & Hloop & [= <-]).
  apply loop_calls in Hloop as (calls & -> & Hcalls). by exists ds, calls.
Qed.

Lemma ranges_start (R start end_ : Z) : (start, end_) ∈ ranges R -> 0 <= start.
Proof.
  unfold ranges. intros H. apply list_elem_of_omap in H as (c & Hc & Hb).
  apply elem_of_range in Hc. apply bounds_Some in Hb as (-> & _). unfold chunk. lia.
Qed.

Lemma Forall2_concat' {A B} (P : A -> B -> Prop) (ls : list (list A)) (ks : list (list B)) :
  Forall2 (Forall2 P) ls ks -> Forall2 P (concat ls) (concat ks).
Proof. induction 1; simpl; [constructor|]. by apply Forall2_app. Qed.

Ltac each_kind H :=
  unfold known_kinds in H;
  repeat (apply elem_of_cons in H as [->|H]); [| | | | |by apply elem_of_nil in H].

(** The rows of one chunk, for each of the five kinds. *)
Lemma chunk_rows rt kind ds pid start end_ loc loc' sio :
  kind ∈ known_kinds ->
  0 <= start ->
  gather rt ds ("tick_data_" +:+ kind) pid start end_ loc = Ok loc' ->
  write_arrays rt ("tick_data_" +:+ kind) loc' = Ok sio ->
  exists out, sio = csv_text rt out
    /\ Forall2 (fact_row rt pid kind) (slice (rows ds) start end_) out.
Proof.
  intros Hkind Hstart Hg Hw. each_kind Hkind.
  all: run_chunk Hg Hw.
  all: lazymatch goal with |- context [zip_star ?arrays] => exists (zip_star arrays) end.
  all: (split; [reflexivity|]).
  all: rewrite ?slice_fmap.
  all: set (sl := slice (rows ds) start end_) in *.
  all: unfold fact_row.
  all: match goal with
       | |- Forall2 (fun r row => Forall2 _ (layout ?k) row) _ _ =>
           let v := eval vm_compute in (layout k) in change (layout k) with v
       end.
  all: eapply Forall2_impl;
    [ eapply (zip_star_covers (cell rt pid <$> _)) |
      intros r row Hrow; apply Forall2_fmap_l in Hrow; exact Hrow ].
  all: try (simpl; repeat constructor; simpl; try done;
            first [ apply covers_full; by apply slice_length_le
                  | by apply covers_decoded
                  | apply covers_fmap_self ]).
  all: first [ do 3 apply Exists_cons_tl; apply Exists_cons_hd; by rewrite length_fmap
             | do 2 apply Exists_cons_tl; apply Exists_cons_hd; rewrite length_fmap;
               symmetry; by eapply Forall2_length ].
Qed.

Lemma copy_statement_kind kind :
  kind ∈ known_kinds ->
  copy_statement ("tick_data_" +:+ kind)
  = Ok ("COPY tick_data_" +:+ kind +:+ " " +:+ tuple_text (column_name <$> layout kind)
        +:+ " FROM STDIN WITH CSV HEADER").
Proof.
  intros Hkind. each_kind Hkind.
  all: vm_compute; reflexivity.
Qed.

(** The bulk loads of a table of a known kind, range by range. *)
Lemma assemble_rows rt h5 group table pid db db' :
  group ∈ known_kinds ->
  assemble_data_as_string rt h5 group table ("tick_data_" +:+ group) pid db = Ok db' ->
  exists ds outs,
    h5_getitem h5 group table = Ok ds
    /\ db' = loaded db (bulk_load rt group <$> outs)
    /\ Forall2 (fun rg out => Forall2 (fact_row rt pid group) (slice (rows ds) rg.1 rg.2) out)
         (ranges (len (rows ds))) outs.
Proof.
  intros Hkind H.
  apply assemble_calls in H as (ds & calls & Hds & -> & Hcalls).
  exists ds.
  assert (exists outs, calls = bulk_load rt group <$> outs
                       /\ Forall2 (fun rg out => Forall2 (fact_row rt pid group)
                                                   (slice (rows ds) rg.1 rg.2) out)
                            (ranges (len (rows ds))) outs) as (outs & -> & Houts);
    [|by exists outs].
  assert (Forall (fun rg => 0 <= rg.1) (ranges (len (rows ds)))) as Hpos.
  { apply Forall_forall. intros [start end_] Hin. by eapply ranges_start. }
  induction Hcalls as [|rg c rgs calls Hc _ IH].
  - exists []. split; [done|constructor].
  - apply Forall_cons in Hpos as [Hrg Hpos].
    destruct (IH Hpos) as (outs & -> & Houts).
    destruct Hc as (loc & loc' & Hg & Hw & Hs).
    destruct (chunk_rows rt group ds pid rg.1 rg.2 loc loc' _ Hkind Hrg Hg Hw)
      as (out & Hout & Hrows).
    exists (out :: outs). split; [|by constructor].
    simpl. f_equal. rewrite copy_statement_kind in Hs by done.
    destruct c as [sql file]. simpl in *. injection Hs as <-. by subst file.
Qed.

Lemma all_rows (P : record -> list value -> Prop) (l : list record)
    (outs : list (list (list value))) :
  Forall2 (fun rg out => Forall2 P (slice l rg.1 rg.2) out) (ranges (len l)) outs ->
  Forall2 P l (concat outs).
Proof.
  intros Houts. rewrite <-(slices_cover l) at 1. apply Forall2_concat'.
  apply Forall2_fmap_l. eapply Forall2_impl; [exact Houts|].
  by intros [start end_] out.
Qed.

(** X2. What [assemble_data_as_string] loads for a table of a known kind,
    when it returns: the columns that the arrays are written in are the
    columns that [db_table_columns] names after [unique_id]; there is one
    bulk load for each started chunk of rows, into the fact table of the
    kind and naming these columns; and the rows of the bulk loads, one
    after the other, are the rows of the elements of the dataset, in
    order, each element once. *)
Theorem every_row_is_loaded_once
    (rt : runtime) (h5 : h5file) (group table : string) (product_id : Z)
    (db db' : database) :
  group ∈ known_kinds ->
  assemble_data_as_string rt h5 group table ("tick_data_" +:+ group) product_id db = Ok db' ->
  db_table_columns !! group = Some ("unique_id" :: (column_name <$> layout group))
  /\ exists (ds : dataset) (outs : list (list (list value))),
       h5_getitem h5 group table = Ok ds
       /\ db' = loaded db (bulk_load rt group <$> outs)
       /\ len outs = chunks (len (rows ds))
       /\ Forall2 (fact_row rt product_id group) (rows ds) (concat outs).
Proof.
  intros Hkind H. split.
  { each_kind Hkind. all: vm_compute; reflexivity. }
  apply assemble_rows in H as (ds & outs & Hds & -> & Houts); [|done].
  exists ds, outs. split; [done|]. split; [done|]. split.
  - apply Forall2_length in Houts. unfold len at 1. rewrite <-Houts.
    assert (0 <= len (rows ds)) as HR by (unfold len; lia).
    rewrite ranges_chunks by done. rewrite length_fmap, length_seqZ.
    pose proof (chunks_le_turns _ HR). lia.
  - by apply all_rows.
Qed.

(** *** The price and the product of a row *)

Ltac eval_layout H :=
  match type of H with
  | context [layout ?k] =>
      let v := eval cbv [layout String.eqb Ascii.eqb Bool.eqb andb] in (layout k) in
      change (layout k) with v in H
  end.

Lemma fact_row_price rt pid kind r row :
  kind ∈ ["match"; "open"; "done"; "change"] ->
  fact_row rt pid kind r row ->
  row !! 0%nat = Some (VInt pid)
  /\ row !! 3%nat = Some (price r)
  /\ Forall (fun '(i, proj) => row !! i = Some (VFloat (divide (proj r) 100000000)))
       (scaled_sizes kind).
Proof.
  intros Hkind Hrow. unfold fact_row in Hrow.
  repeat (apply elem_of_cons in Hkind as [->|Hkind]); [| | | |by apply elem_of_nil in Hkind].
  all: eval_layout Hrow.
  all: repeat match goal with
       | H : Forall2 _ (_ :: _) _ |- _ =>
           apply Forall2_cons_inv_l in H as (? & ? & ? & H & ->)
       end.
  all: cbn [cell] in *; subst.
  all: split; [done|]; split; [done|].
  all: repeat constructor.
Qed.

(** C3 (as amended). When [assemble_data_as_string] returns for a table
    of a kind that has a price column (executed, placed, amended,
    removed), its bulk loads are the rows of the chunks of the dataset,
    one row for each element, in order, every field of a row being the
    field of its column for the element; and in every row the fourth
    field is the price of the element as the file stores it, which
    nothing divides (a stored integer is written in decimal by [str]),
    while every size of the row (size, remaining_size, old_size and
    new_size) is the stored one divided by 10^8. *)
Theorem price_is_the_stored_value
    (rt : runtime) (h5 : h5file) (group table : string) (product_id : Z)
    (db db' : database) :
  group ∈ ["match"; "open"; "done"; "change"] ->
  assemble_data_as_string rt h5 group table ("tick_data_" +:+ group) product_id db = Ok db' ->
  (forall z : Z, str rt (VInt z) = str_int z)
  /\ exists (ds : dataset) (outs : list (list (list value))),
       h5_getitem h5 group table = Ok ds
       /\ db' = loaded db (bulk_load rt group <$> outs)
       /\ Forall2
            (fun rg out =>
               Forall2
                 (fun r row =>
                    fact_row rt product_id group r row
                    /\ row !! 3%nat = Some (price r)
                    /\ Forall (fun '(i, proj) =>
                                 row !! i = Some (VFloat (divide (proj r) 100000000)))
                         (scaled_sizes group))
                 (slice (rows ds) rg.1 rg.2) out)
            (ranges (len (rows ds))) outs.
Proof.
  intros Hkind H. split; [done|].
  assert (group ∈ known_kinds) as Hknown.
  { unfold known_kinds. clear -Hkind.
    repeat (apply elem_of_cons in Hkind as [->|Hkind]); [| | | |by apply elem_of_nil in Hkind].
    all: repeat constructor. }
  apply assemble_rows in H as (ds & outs & Hds & -> & Houts); [|done].
  exists ds, outs. split; [done|]. split; [done|].
  eapply Forall2_impl; [exact Houts|]. intros rg out Hout. cbv beta in Hout.
  eapply Forall2_impl; [exact Hout|]. intros r row Hrow.
  destruct (fact_row_price rt product_id group r row Hkind Hrow) as (_ & Hprice & Hsizes).
  done.
Qed.

(** C7 (as amended). The script does not check what the lookup returns:
    when a table of a file has been processed, its bulk loads are the
    rows of the elements of its dataset, in order, and for a kind whose
    rows carry a product each row starts with the identifier that
    [populate_product_table] returned, whatever it is. A table without
    rows gets the identifier 0 and no bulk load. On a product table that
    keeps its keys positive and below its sequence and its triples apart,
    the table gets the row of its product, and the lookup returns the
    identifier of that row, which is positive, when the table has rows:
    it returns 0 exactly when the table has no row, and then nothing is
    loaded. *)
Theorem product_zero_emits_nothing
    (rt : runtime) (h5 : h5file) (group table : string) (s s' : session) :
  process_table rt h5 group s table = Ok s' ->
  exists (symbol currency symbol_name : string) (db1 : database) (ds : dataset)
         (product_id : Z) (calls : list copy_call),
    unpack2 (split "_" table) = Ok (symbol, currency)
    /\ insert_product_id symbol currency symbol_name "Coinbase Pro" (conn s) = Ok db1
    /\ h5_getitem h5 group table = Ok ds
    /\ populate_product_table h5 group table symbol currency "Coinbase Pro" db1
       = Ok product_id
    /\ conn s' = loaded db1 calls
    /\ (rows ds = [] -> product_id = 0 /\ calls = [])
    /\ (group ∈ ["match"; "open"; "done"; "change"] ->
          exists outs : list (list (list value)),
            calls = bulk_load rt group <$> outs
            /\ Forall2 (fun r row => fact_row rt product_id group r row
                                     /\ row !! 0%nat = Some (VInt product_id))
                 (rows ds) (concat outs))
    /\ (wf_db (conn s) ->
          exists r : product_row,
            select_product symbol currency "Coinbase Pro" db1 = Some r
            /\ 0 < p_unique_id r
            /\ product_id = (if 0 <? len (rows ds) then p_unique_id r else 0)
            /\ (product_id = 0 <-> rows ds = [])
            /\ (product_id = 0 -> calls = [])).
Proof.
  intros H.
  apply process_table_Ok in H
    as (symbol & currency & symbol_name & product_id & db' & Hu & Hn & Hs & Hc & Hi & Hp & Ha
        & ->).
  set (db1 := insert_product symbol currency symbol_name "Coinbase Pro" (conn s)) in *.
  pose proof Ha as Ha'.
  apply assemble_emits in Ha as (ds & calls & Hds & -> & Hcalls).
  assert (rows ds = [] -> calls = []) as Hnone.
  { intros Hz. destruct calls as [|c calls]; [done|].
    apply Forall_cons in Hcalls as [Hc' _]. apply emitted_rows_left in Hc'.
    rewrite Hz in Hc'. done. }
  exists symbol, currency, symbol_name, db1, ds, product_id, calls.
  split; [done|]. split; [done|]. split; [done|]. split; [done|]. split; [done|].
  split; [|split].
  - intros Hz. split; [|by apply Hnone].
    rewrite (populate_empty _ _ _ _ _ _ _ ds Hds Hz) in Hp. by injection Hp as <-.
  - intros Hkind.
    assert (group ∈ known_kinds) as Hknown.
    { unfold known_kinds. clear -Hkind.
      repeat (apply elem_of_cons in Hkind as [->|Hkind]); [| | | |by apply elem_of_nil in Hkind].
      all: repeat constructor. }
    apply assemble_rows in Ha' as (ds' & outs & Hds' & Hdb & Houts); [|done].
    rewrite Hds in Hds'. injection Hds' as <-.
    exists outs. split.
    + apply (f_equal copied) in Hdb. cbn [loaded copied] in Hdb.
      by apply app_inv_head in Hdb.
    + apply all_rows in Houts. eapply Forall2_impl; [exact Houts|].
      intros x row Hfact. split; [done|].
      by destruct (fact_row_price rt product_id group x row Hkind Hfact) as (Hhead & _).
  - intros Hwf.
    destruct (insert_product_spec symbol currency symbol_name "Coinbase Pro" (conn s) Hwf)
      as (_ & (r & Hr & Hid) & _).
    fold db1 in Hr.
    rewrite (populate_spec _ _ _ _ _ _ _ ds r Hds) in Hp by done. injection Hp as Hp.
    assert (product_id = 0 <-> rows ds = []) as Hzero.
    { rewrite <-Hp. destruct (rows ds) as [|x l]; [done|].
      assert ((0 <? len (x :: l)) = true) as -> by (apply Z.ltb_lt; unfold len; simpl; lia).
      split; [lia|done]. }
    exists r. split; [unfold select_product; by rewrite find_filter, Hr|].
    split; [done|]. split; [done|]. split; [done|].
    intros Hz. by apply Hnone, Hzero.
Qed.

(** *** Columns that are there *)

Lemma mapM_decode (l : list string) :
  mapM decode l = if forallb utf8_valid l then Ok l else Raise UnicodeDecodeError.
Proof.
  induction l as [|b l IH]; [done|].
  cbn [mapM forallb]. rewrite IH. unfold decode.
  destruct (utf8_valid b); [|reflexivity].
  rewrite bind_ret_l. cbn [andb]. by destruct (forallb utf8_valid l).
Qed.

Lemma field_present {A} (ds : dataset) (name : string) (proj : record -> A) :
  name ∈ dtype ds -> field ds name proj = Ok (proj <$> rows ds).
Proof. intros H. unfold field. by rewrite bool_decide_eq_true_2. Qed.

Lemma decoded_present ds name proj start end_ :
  name ∈ dtype ds ->
  decoded ds name proj start end_
  = if forallb utf8_valid (proj <$> slice (rows ds) start end_)
    then Ok (PArray (VStr <$> (proj <$> slice (rows ds) start end_)))
    else Raise UnicodeDecodeError.
Proof.
  intros H. unfold decoded, char_decode. rewrite field_present, bind_ret_l by done.
  rewrite slice_fmap, mapM_decode. by destruct (forallb _ _).
Qed.

(** X3. An identifier column, chunk by chunk: the identifiers as stored
    when every one of the chunk is UTF-8, and otherwise [end] nil
    identifiers in the place of all of them, the well-formed ones too. *)
Theorem identifiers_all_or_nil
    (ds : dataset) (name : string) (proj : record -> string) (start end_ : Z) :
  name ∈ dtype ds ->
  decoded_or_nil ds name proj start end_
  = Ok (PArray (if forallb utf8_valid (proj <$> slice (rows ds) start end_)
                then VStr <$> (proj <$> slice (rows ds) start end_)
                else full end_ (VStr nil_uuid))).
Proof.
  intros H. unfold decoded_or_nil. rewrite decoded_present by done.
  by destruct (forallb _ _).
Qed.

Lemma decoded_or_nil_total ds name proj start end_ :
  name ∈ dtype ds -> exists a, decoded_or_nil ds name proj start end_ = Ok (PArray a).
Proof.
  intros H. unfold decoded_or_nil. rewrite decoded_present by done.
  destruct (forallb _ _); simpl; eauto.
Qed.

Lemma decoded_or_nil_returns ds name proj start end_ :
  exists a, decoded_or_nil ds name proj start end_ = Ok (PArray a).
Proof.
  destruct (decide (name ∈ dtype ds)) as [Hin|Hout]; [by apply decoded_or_nil_total|].
  unfold decoded_or_nil, decoded, field. rewrite bool_decide_eq_false_2 by done.
  simpl. eauto.
Qed.

Lemma forallb_valid (proj : record -> string) (sl : list record) :
  Forall (fun r => utf8_valid (proj r) = true) sl -> forallb utf8_valid (proj <$> sl) = true.
Proof.
  induction 1 as [|r sl Hr _ IH]; [done|]. rewrite fmap_cons. cbn [forallb]. by rewrite Hr, IH.
Qed.

Lemma forallb_invalid (proj : record -> string) (sl : list record) (r : record) :
  r ∈ sl -> utf8_valid (proj r) = false -> forallb utf8_valid (proj <$> sl) = false.
Proof.
  intros Hr Hv. destruct (forallb utf8_valid (proj <$> sl)) eqn:E; [|done].
  rewrite forallb_forall in E. rewrite <-Hv. symmetry. apply E.
  apply list_elem_of_In, list_elem_of_fmap. by exists r.
Qed.

Lemma decoded_total ds name proj start end_ :
  name ∈ dtype ds ->
  Forall (fun r => utf8_valid (proj r) = true) (slice (rows ds) start end_) ->
  exists a, decoded ds name proj start end_ = Ok (PArray a).
Proof.
  intros H Hv. rewrite decoded_present by done. rewrite forallb_valid by done. eauto.
Qed.

Lemma mapM_pure {A B} (f : A -> B) (l : list A) :
  mapM (fun x => Ok (f x)) l = Ok (f <$> l).
Proof. apply mapM_result_Ok. apply Forall2_fmap_r. by apply Forall_Forall2_diag, Forall_true. Qed.

Lemma mapM_total {A B} (f : A -> result B) (l : list A) :
  Forall (fun x => exists y, f x = Ok y) l -> exists k, mapM f l = Ok k.
Proof.
  induction 1 as [|x l [y Hy] _ [k IH]]; [by exists []|].
  exists (y :: k). cbn [mapM]. by rewrite Hy, bind_ret_l, IH.
Qed.

Lemma scaled_total ds name proj start end_ :
  name ∈ dtype ds -> slice (rows ds) start end_ <> [] ->
  exists a, scaled ds name proj start end_ = Ok (PArray a).
Proof.
  intros H Hne. unfold scaled. rewrite field_present, bind_ret_l by done.
  rewrite slice_fmap. unfold vectorize.
  destruct (slice (rows ds) start end_) as [|r sl] eqn:Hsl; [done|].
  change (proj <$> r :: sl) with (proj r :: (proj <$> sl)).
  cbv beta iota. rewrite mapM_pure. simpl. eauto.
Qed.

Lemma timestamps_total rt ds start end_ :
  "time" ∈ dtype ds -> slice (rows ds) start end_ <> [] ->
  Forall (fun r => exists s, datetime_str rt (float_of_int (time r) / 1e6)%float = Ok s)
    (slice (rows ds) start end_) ->
  exists a, timestamps rt ds start end_ = Ok (PArray a).
Proof.
  intros H Hne Hall. unfold timestamps. rewrite field_present, bind_ret_l by done.
  rewrite slice_fmap.
  destruct (mapM_total (datetime_str rt)
              ((fun t => (float_of_int t / 1e6)%float) <$> (time <$> slice (rows ds) start end_)))
    as [a Ha].
  { by rewrite !Forall_fmap. }
  unfold vectorize.
  destruct (slice (rows ds) start end_) as [|r sl] eqn:Hsl; [done|].
  rewrite !fmap_cons in *. cbv beta iota. rewrite Ha. simpl. eauto.
Qed.

Lemma Forall_slice {A} (P : A -> Prop) (l : list A) (start end_ : Z) :
  Forall P l -> Forall P (slice l start end_).
Proof. intros H. unfold slice. by apply Forall_take, Forall_drop. Qed.

Lemma Forall_Forall_cons {A B} (Q : A -> B -> Prop) (c : B) (cs : list B) (sl : list A) :
  Forall (fun r => Forall (Q r) (c :: cs)) sl ->
  Forall (fun r => Q r c) sl /\ Forall (fun r => Forall (Q r) cs) sl.
Proof.
  intros H. split; (eapply Forall_impl; [exact H|]); intros r Hr; by apply Forall_cons in Hr as [? ?].
Qed.

(** *** When a table is loaded *)

Ltac eval_goal_conds :=
  repeat match goal with
  | |- context [bool_decide ?P] =>
      let b := eval vm_compute in (bool_decide P) in
      change (bool_decide P) with b
  | |- context [contains ?a ?b] =>
      let v := eval vm_compute in (contains a b) in
      change (contains a b) with v
  | |- context [drop_chars 10 ?t] =>
      let v := eval vm_compute in (drop_chars 10 t) in
      change (drop_chars 10 t) with v
  end.

Ltac step_column :=
  match goal with
  | |- context [decoded ?ds ?name ?proj ?s ?e] =>
      let a := fresh "a" in let Ha := fresh "Ha" in
      destruct (decoded_total ds name proj s e) as [a Ha]; [done|done|]; rewrite Ha, bind_ret_l
  | |- context [decoded_or_nil ?ds ?name ?proj ?s ?e] =>
      let a := fresh "a" in let Ha := fresh "Ha" in
      destruct (decoded_or_nil_total ds name proj s e) as [a Ha]; [done|]; rewrite Ha, bind_ret_l
  | |- context [scaled ?ds ?name ?proj ?s ?e] =>
      let a := fresh "a" in let Ha := fresh "Ha" in
      destruct (scaled_total ds name proj s e) as [a Ha]; [done|done|]; rewrite Ha, bind_ret_l
  | |- context [timestamps ?rt ?ds ?s ?e] =>
      let a := fresh "a" in let Ha := fresh "Ha" in
      destruct (timestamps_total rt ds s e) as [a Ha]; [done|done|done|]; rewrite Ha, bind_ret_l
  | |- context [field ?ds "price" price] =>
      rewrite (field_present ds "price" price), bind_ret_l by done
  end.

(** One turn of the loop on a readable dataset. *)
Lemma chunk_total rt kind ds pid start end_ loc :
  kind ∈ known_kinds ->
  readable rt kind ds ->
  slice (rows ds) start end_ <> [] ->
  exists loc' sio sql,
    gather rt ds ("tick_data_" +:+ kind) pid start end_ loc = Ok loc'
    /\ write_arrays rt ("tick_data_" +:+ kind) loc' = Ok sio
    /\ copy_statement ("tick_data_" +:+ kind) = Ok sql.
Proof.
  intros Hkind [Hfields Hrows] Hne.
  assert (Forall (fun r => Forall (converts rt r) (layout kind)) (slice (rows ds) start end_))
    as Hsl by by apply Forall_slice.
  clear Hrows. each_kind Hkind.
  all: eval_layout Hfields; eval_layout Hsl.
  all: repeat (apply Forall_cons in Hfields as [? Hfields]); clear Hfields.
  all: repeat match goal with
       | H : Forall (fun r => Forall _ (_ :: _)) _ |- _ =>
           let H1 := fresh "Hc" in apply Forall_Forall_cons in H as [H1 H]
       end; clear Hsl.
  all: cbn [has_field converts] in *.
  all: unfold gather; eval_goal_conds; cbv iota beta zeta.
  all: repeat step_column.
  all: cbv [mbind mret result_bind result_ret].
  all: eexists _, _, _; split; [reflexivity|]; split; [|vm_compute; reflexivity].
  all: unfold write_arrays, write_if; eval_goal_conds; cbv iota beta zeta.
  all: cbv [arrays_to_CSV_string mapM iter load assign String.eqb Ascii.eqb Bool.eqb andb
            mbind mret result_bind result_ret].
  all: reflexivity.
Qed.

Lemma for_each_total_or {S X} (P : exn -> Prop) (body : S -> X -> result S) (xs : list X) :
  (forall s x, x ∈ xs ->
     (exists s', body s x = Ok s') \/ (exists e, P e /\ body s x = Raise e)) ->
  forall s, (exists s', for_each body s xs = Ok s')
            \/ (exists e, P e /\ for_each body s xs = Raise e).
Proof.
  induction xs as [|x xs IH]; intros Hbody s; simpl; [eauto|].
  destruct (Hbody s x) as [[s1 ->]|(e & He & ->)]; [left| |by right; exists e].
  rewrite bind_ret_l. apply IH. intros s2 y Hy. apply Hbody. by right.
Qed.

(** A readable dataset is loaded, unless the server refuses one of its
    bulk loads. *)
Lemma assemble_total rt h5 group table ds pid db :
  group ∈ known_kinds ->
  h5_getitem h5 group table = Ok ds ->
  readable rt group ds ->
  (exists db', assemble_data_as_string rt h5 group table ("tick_data_" +:+ group) pid db = Ok db')
  \/ (exists e,
        (exists db1 out,
            copy_error rt db1 (cc_sql (bulk_load rt group out)) (cc_file (bulk_load rt group out))
            = Some e)
        /\ assemble_data_as_string rt h5 group table ("tick_data_" +:+ group) pid db = Raise e).
Proof.
  intros Hkind Hds Hread. unfold assemble_data_as_string. rewrite Hds, bind_ret_l.
  destruct (for_each_total_or
              (fun e => exists db1 out,
                   copy_error rt db1 (cc_sql (bulk_load rt group out))
                     (cc_file (bulk_load rt group out)) = Some e)
              (chunk_body rt ds ("tick_data_" +:+ group) pid (len (rows ds)))
              (range (turns (len (rows ds))))) with (s := (initial_locals, db))
    as [[st Hst]|(e & He & Hst)].
  - intros st count Hcount. apply elem_of_range in Hcount. unfold chunk_body.
    destruct (bounds (len (rows ds)) count) as [[start end_]|] eqn:Hb; [|left; by eexists].
    apply bounds_Some in Hb as (Hstart & Hlt & Hend).
    destruct (chunk_total rt group ds pid start end_ st.1 Hkind Hread)
      as (loc' & sio & sql & Hg & Hw & Hs).
    + intros Hnil. assert (len (slice (rows ds) start end_) = 0) as Hlen by by rewrite Hnil.
      rewrite slice_length in Hlen by (unfold chunk in *; lia).
      destruct (len (rows ds) <? chunk) eqn:E; unfold chunk in *; lia.
    + rewrite Hg, bind_ret_l, Hw, bind_ret_l, Hs, bind_ret_l. unfold copy_expert.
      destruct (copy_error rt st.2 sql sio) as [e|] eqn:He; [right|left; by eexists].
      exists e. split; [|done].
      destruct (chunk_rows rt group ds pid start end_ st.1 loc' sio) as (out & -> & _);
        [done|unfold chunk in *; lia|done|done|].
      rewrite copy_statement_kind in Hs by done. injection Hs as <-.
      by exists st.2, out.
  - left. rewrite Hst. by eexists.
  - right. exists e. split; [done|]. by rewrite Hst.
Qed.

Lemma decode_Ok (b s : string) : decode b = Ok s -> utf8_valid b = true.
Proof. unfold decode. by destruct (utf8_valid b). Qed.

Lemma cell_converts rt pid col r x : cell rt pid col r x -> converts rt r col.
Proof.
  destruct col; simpl; try done.
  - intros (s & Hs & _). eauto.
  - intros (s & Hs & _). by eapply decode_Ok.
Qed.

(** X4. A table of a known kind whose dataset has the columns of the kind
    is loaded exactly when every element can be converted (every text
    other than an identifier is UTF-8, and the host has a date for every
    time) and the server takes the bulk loads: when
    [assemble_data_as_string] returns, every element can be converted;
    when every element can be converted, it returns or raises what the
    server answered to one of the bulk loads of the table; so, on a
    server that takes every bulk load of the table, it returns exactly
    when every element can be converted. *)
Theorem table_is_loaded_iff_readable
    (rt : runtime) (h5 : h5file) (group table : string) (ds : dataset) (product_id : Z)
    (db : database) :
  group ∈ known_kinds ->
  h5_getitem h5 group table = Ok ds ->
  Forall (has_field ds) (layout group) ->
  let returns :=
    exists db' : database,
      assemble_data_as_string rt h5 group table ("tick_data_" +:+ group) product_id db = Ok db' in
  let refused (e : exn) :=
    exists (db1 : database) (out : list (list value)),
      copy_error rt db1 (cc_sql (bulk_load rt group out)) (cc_file (bulk_load rt group out))
      = Some e in
  let convertible := Forall (fun r => Forall (converts rt r) (layout group)) (rows ds) in
  (returns -> convertible)
  /\ (convertible ->
        returns
        \/ exists e : exn,
             refused e
             /\ assemble_data_as_string rt h5 group table ("tick_data_" +:+ group) product_id db
                = Raise e)
  /\ ((forall e, ~ refused e) -> (returns <-> convertible)).
Proof.
  intros Hkind Hds Hfields returns refused convertible.
  assert (returns -> convertible) as Honly.
  { intros [db' H]. apply assemble_rows in H as (ds' & outs & Hds' & _ & Houts); [|done].
    rewrite Hds in Hds'. injection Hds' as <-. apply all_rows in Houts.
    apply Forall_forall. intros r Hr.
    apply list_elem_of_lookup in Hr as [i Hr].
    destruct (Forall2_lookup_l _ _ _ _ _ Houts Hr) as (row & _ & Hrow).
    unfold fact_row in Hrow. clear -Hrow.
    induction Hrow as [|col x cols row Hx _ IH]; constructor; [|done].
    by eapply cell_converts. }
  assert (convertible ->
          returns
          \/ exists e : exn,
               refused e
               /\ assemble_data_as_string rt h5 group table ("tick_data_" +:+ group) product_id db
                  = Raise e) as Hif.
  { intros Hrows. by eapply assemble_total. }
  split; [done|]. split; [done|].
  intros Htakes. split; [done|]. intros Hrows.
  destruct (Hif Hrows) as [?|(e & He & _)]; [done|]. by destruct (Htakes e).
Qed.

(** *** A side that is not UTF-8 *)

Lemma gather_side_raises rt kind ds pid start end_ loc r :
  kind ∈ known_kinds ->
  "side" ∈ dtype ds ->
  r ∈ slice (rows ds) start end_ ->
  utf8_valid (side r) = false ->
  gather rt ds ("tick_data_" +:+ kind) pid start end_ loc = Raise UnicodeDecodeError.
Proof.
  intros Hkind Hfield Hr Hv.
  assert (decoded ds "side" side start end_ = Raise UnicodeDecodeError) as Hd.
  { rewrite decoded_present by done. by rewrite (forallb_invalid side _ r). }
  destruct (decoded_or_nil_returns ds "order_id" order_id start end_) as [a Ha].
  each_kind Hkind.
  all: unfold gather; eval_goal_conds; cbv iota beta zeta.
  all: rewrite ?Ha, Hd; reflexivity.
Qed.

Lemma elem_of_slices {A} (l : list A) (x : A) :
  x ∈ l -> exists count start end_,
    count ∈ range (turns (len l)) /\ bounds (len l) count = Some (start, end_)
    /\ x ∈ slice l start end_.
Proof.
  intros Hx. rewrite <-(slices_cover l) in Hx.
  apply list_elem_of_In, in_concat in Hx as (sl & Hsl & Hx).
  apply list_elem_of_In, list_elem_of_fmap in Hsl as ([start end_] & -> & Hrg).
  unfold ranges in Hrg. apply list_elem_of_omap in Hrg as (count & Hcount & Hb).
  exists count, start, end_. split; [done|]. split; [done|]. by apply list_elem_of_In.
Qed.

(** X5. A side that is not UTF-8 is not replaced, as an identifier is: it
    makes [assemble_data_as_string] raise, for every known kind, and
    what is raised is [UnicodeDecodeError] when the element is in the
    first chunk. *)
Theorem undecodable_side_aborts
    (rt : runtime) (h5 : h5file) (group table : string) (ds : dataset) (product_id : Z)
    (db : database) (i : nat) (r : record) :
  group ∈ known_kinds ->
  h5_getitem h5 group table = Ok ds ->
  "side" ∈ dtype ds ->
  rows ds !! i = Some r ->
  utf8_valid (side r) = false ->
  exists e : exn,
    assemble_data_as_string rt h5 group table ("tick_data_" +:+ group) product_id db = Raise e
    /\ (Z.of_nat i < chunk -> e = UnicodeDecodeError).
Proof.
  intros Hkind Hds Hfield Hi Hv. unfold assemble_data_as_string. rewrite Hds, bind_ret_l.
  destruct (decide (Z.of_nat i < chunk)) as [Hfirst|Hlater].
  - exists UnicodeDecodeError. split; [|done].
    assert (0 < len (rows ds)) as HR by (apply lookup_lt_Some in Hi; unfold len; lia).
    rewrite (range_pos (turns _)) by by apply turns_pos.
    cbn [for_each].
    assert (chunk_body rt ds ("tick_data_" +:+ group) product_id (len (rows ds))
              (initial_locals, db) 0 = Raise UnicodeDecodeError) as ->; [|done].
    unfold chunk_body.
    destruct (bounds (len (rows ds)) 0) as [[start end_]|] eqn:Hb.
    + apply bounds_Some in Hb as (-> & _ & ->).
      rewrite (gather_side_raises rt group ds product_id _ _ _ r); [done..| |done].
      apply list_elem_of_lookup. exists i. unfold slice. simpl.
      rewrite lookup_take_lt; [done|].
      destruct (Z.ltb_spec (len (rows ds)) chunk); unfold len, chunk in *; [|lia].
      apply lookup_lt_Some in Hi. lia.
    + unfold bounds in Hb. cbv zeta in Hb.
      assert ((0 * chunk <? len (rows ds)) = true) as E by (apply Z.ltb_lt; unfold chunk; lia).
      by rewrite E in Hb.
  - destruct (elem_of_slices (rows ds) r) as (count & start & end_ & Hcount & Hb & Hr).
    { by eapply list_elem_of_lookup_2. }
    destruct (for_each_raises
                (chunk_body rt ds ("tick_data_" +:+ group) product_id (len (rows ds)))
                (range (turns (len (rows ds)))) count Hcount) with (s := (initial_locals, db))
      as [e He].
    + intros st. exists UnicodeDecodeError. unfold chunk_body. rewrite Hb.
      by rewrite (gather_side_raises rt group ds product_id _ _ _ r).
    + exists e. split; [|done]. by rewrite He.
Qed.

(** *** The text of the rows *)

Lemma mapM_iter (arrays : list pyobj) :
  (Forall (fun o => exists a, o = PArray a) arrays
   /\ exists columns, mapM iter arrays = Ok columns /\ arrays = PArray <$> columns)
  \/ (Exists (fun o => exists z, o = PInt z) arrays /\ mapM iter arrays = Raise TypeError).
Proof.
  induction arrays as [|o arrays IH].
  - left. split; [constructor|]. by exists [].
  - cbn [mapM]. destruct o as [z|a].
    + right. split; [|done]. left. by exists z.
    + simpl. destruct IH as [(Hall & columns & -> & ->)|[Hex ->]].
      * left. split; [constructor; eauto|]. by exists (a :: columns).
      * right. split; [by right|done].
Qed.

(** X6. [arrays_to_CSV_string] raises exactly when one of its arguments
    is not an array but the integer that a variable was initialised
    with; what it raises then is [TypeError], and it raises nothing
    else. *)
Theorem arrays_to_CSV_string_needs_arrays (rt : runtime) (arrays : list pyobj) :
  ((exists z, PInt z ∈ arrays) <-> arrays_to_CSV_string rt arrays = Raise TypeError)
  /\ ((forall z, PInt z ∉ arrays) <-> exists text, arrays_to_CSV_string rt arrays = Ok text).
Proof.
  unfold arrays_to_CSV_string.
  destruct (mapM_iter arrays) as [(Hall & columns & -> & _)|[Hex ->]].
  - rewrite bind_ret_l. split; split.
    + intros [z Hz]. apply (proj1 (Forall_forall _ _) Hall) in Hz as [a Ha]. done.
    + done.
    + by eexists.
    + intros _ z Hz. apply (proj1 (Forall_forall _ _) Hall) in Hz as [a Ha]. done.
  - apply Exists_exists in Hex as (o & Ho & z & ->). split; split.
    + done.
    + intros _. by exists z.
    + intros Hno. by destruct (Hno z).
    + by intros [text Htext].
Qed.

Lemma split_clean (sep : ascii) (s : string) : occurs sep s = false -> split sep s = [s].
Proof.
  induction s as [|c s IH]; [done|]. simpl. intros H.
  apply orb_false_iff in H as [-> H]. by rewrite IH.
Qed.

Lemma split_append (sep : ascii) (s t : string) :
  occurs sep s = false ->
  split sep (s +:+ String sep t) = s :: split sep t.
Proof.
  induction s as [|c s IH]; intros H.
  - change (EmptyString +:+ String sep t) with (String sep t). simpl.
    by rewrite Ascii.eqb_refl.
  - change (String c s +:+ String sep t) with (String c (s +:+ String sep t)).
    simpl in *. apply orb_false_iff in H as [-> H]. by rewrite IH.
Qed.

Lemma split_join (sep : ascii) (ws : list string) :
  ws <> [] -> Forall (fun w => occurs sep w = false) ws ->
  split sep (join (String sep EmptyString) ws) = ws.
Proof.
  intros Hne Hall. induction Hall as [|w ws Hw Hall IH]; [done|].
  destruct ws as [|w' ws].
  - simpl. by apply split_clean.
  - rewrite join_cons2.
    change (w +:+ String sep EmptyString +:+ join (String sep EmptyString) (w' :: ws))
      with (w +:+ String sep (join (String sep EmptyString) (w' :: ws))).
    rewrite split_append by done. by rewrite IH.
Qed.

Lemma occurs_join (c sep : ascii) (ws : list string) :
  Ascii.eqb sep c = false ->
  Forall (fun w => occurs c w = false) ws ->
  occurs c (join (String sep EmptyString) ws) = false.
Proof.
  intros Hsep. induction 1 as [|w ws Hw Hall IH]; [done|].
  destruct ws as [|w' ws]; [done|].
  rewrite join_cons2, !occurs_app, Hw, IH. simpl. by rewrite Hsep.
Qed.

(** X7. The text of [arrays_to_CSV_string] reads back as the rows it was
    made from, cut at the line feeds and then at the commas, when there
    is a row and no field has a comma or a line feed in its text: the
    text has a line for each row and nothing else, no header line among
    them, and nothing in it is quoted. *)
Theorem csv_text_reads_back (rt : runtime) (arrays : list (list value)) :
  zip_star arrays <> [] ->
  Forall (Forall (fun x => occurs "," (str rt x) = false
                           /\ occurs "010" (str rt x) = false)) (zip_star arrays) ->
  exists text,
    arrays_to_CSV_string rt (PArray <$> arrays) = Ok text
    /\ split "," <$> split "010" text = (fmap (str rt)) <$> zip_star arrays.
Proof.
  intros Hne Hclean. eexists. split.
  { unfold arrays_to_CSV_string. by rewrite mapM_iter_arrays. }
  assert (Forall (fun row => row <> []) (zip_star arrays)) as Hrows.
  { apply Forall_lookup. intros i row Hrow. apply zip_star_lookup in Hrow as [Harr Hrow].
    intros ->. apply Forall2_nil_inv_r in Hrow. done. }
  unfold newline. rewrite split_join.
  - rewrite <-list_fmap_compose. apply list_fmap_ext. intros i row Hrow. simpl.
    apply split_join.
    + pose proof (proj1 (Forall_lookup _ _) Hrows i row Hrow). by destruct row.
    + pose proof (proj1 (Forall_lookup _ _) Hclean i row Hrow) as Hr.
      apply Forall_fmap. eapply Forall_impl; [exact Hr|]. by intros x [? _].
  - by destruct (zip_star arrays).
  - apply Forall_fmap. eapply Forall_impl; [exact Hclean|]. intros row Hr. simpl.
    apply occurs_join; [done|].
    apply Forall_fmap. eapply Forall_impl; [exact Hr|]. by intros x [_ ?].
Qed.

(** *** The product table, over a run *)

(** X8. A product that the table did not hold, for values without a quote
    character: the insertion raises nothing and appends one row, which
    the lookup then finds, with the next value of the sequence and the
    symbol, the currency, the name and the exchange given. *)
Theorem new_product_round_trip
    (symbol currency symbol_name exchange : string) (db : database) :
  wf_db db ->
  occurs "'" symbol = false -> occurs "'" currency = false ->
  occurs "'" symbol_name = false -> occurs "'" exchange = false ->
  select_product symbol currency exchange db = None ->
  let row := {| p_unique_id := product_seq db; p_symbol := symbol; p_currency := currency;
                p_name := symbol_name; p_exchange := exchange |} in
  exists db' : database,
    insert_product_id symbol currency symbol_name exchange db = Ok db'
    /\ select_product symbol currency exchange db' = Some row
    /\ product db' = (product db ++ [row])%list
    /\ product_seq db' = product_seq db + 1.
Proof.
  intros Hwf Hs Hc Hn He Hnone row.
  exists (insert_product symbol currency symbol_name exchange db).
  split; [by apply insert_product_id_clean|].
  pose proof (insert_product_row symbol currency symbol_name exchange db Hwf) as Hrow.
  rewrite Hnone in Hrow. destruct Hrow as [Hf Hp].
  split; [|split; [done|reflexivity]].
  unfold select_product. by rewrite find_filter, Hf.
Qed.


























(** *** Tables and files *)

Lemma split_length (sep : ascii) (s : string) :
  length (split sep s) = S (count_char sep s).
Proof.
  induction s as [|c s IH]; [done|]. cbn [split count_char].
  destruct (Ascii.eqb c sep); [simpl; by rewrite IH|].
  destruct (split sep s) as [|w ws]; [done|]. simpl in *. lia.
Qed.

Lemma unpack2_length {A} (l : list A) : length l <> 2%nat -> unpack2 l = Raise ValueError.
Proof. by destruct l as [|a [|b [|c l]]]. Qed.

(** X12. A table whose name does not have exactly one underscore makes
    the run raise [ValueError], and one whose symbol has no entry in
    [symbol_name_lookup] makes it raise [KeyError], whatever the table
    holds. *)
Theorem table_name_is_symbol_currency
    (rt : runtime) (h5 : h5file) (group table : string) (s : session) :
  (count_char "_" table <> 1%nat -> process_table rt h5 group s table = Raise ValueError)
  /\ (forall symbol currency,
        split "_" table = [symbol; currency] ->
        symbol_name_lookup !! symbol = None ->
        process_table rt h5 group s table = Raise KeyError).
Proof.
  split.
  - intros Hn. unfold process_table. rewrite unpack2_length; [done|].
    rewrite split_length. lia.
  - intros symbol currency Hsplit Hname. unfold process_table. rewrite Hsplit.
    cbn [unpack2]. rewrite bind_ret_l. unfold getitem. by rewrite Hname.
Qed.












(** ** The examples, run *)


Lemma executed_rows_follow_schema_witness :
  assemble_data_as_string Example.host Example.file "match" "BTC_USD" "tick_data_match" 1
    Example.empty_db
  = Ok (loaded Example.empty_db
          [{| cc_sql := Example.copy_match;
              cc_file :=
                "1,buy,2017-07-14 02:40:00,150000000,1.0,maker-1,00000000-0000-0000-0000-000000000000"
                +:+ newline +:+
                "1,sell,2017-07-14 02:40:00.500000,150250000,0.25,maker-2,00000000-0000-0000-0000-000000000000" |}])
  /\ exists (ds : dataset) (calls : list copy_call),
       h5_getitem Example.file "match" "BTC_USD" = Ok ds
       /\ Forall
            (fun c =>
               cc_sql c = Example.copy_match
               /\ exists count start end_ out,
                    0 <= count
                    /\ bounds (len (rows ds)) count = Some (start, end_)
                    /\ cc_file c = csv_text Example.host out
                    /\ Forall2 (executed_row Example.host 1) (slice (rows ds) start end_) out)
            calls.
Proof.
  split; [vm_compute; reflexivity|].
  destruct (executed_rows_follow_schema Example.host Example.file "match" "BTC_USD" 1
              Example.empty_db
              (loaded Example.empty_db
                 [{| cc_sql := Example.copy_match;
                     cc_file :=
                       "1,buy,2017-07-14 02:40:00,150000000,1.0,maker-1,00000000-0000-0000-0000-000000000000"
                       +:+ newline +:+
                       "1,sell,2017-07-14 02:40:00.500000,150250000,0.25,maker-2,00000000-0000-0000-0000-000000000000" |}]))
    as (_ & ds & calls & Hds & _ & Hcalls); [vm_compute; reflexivity|].
  exists ds, calls. split; [exact Hds | exact Hcalls].
Defined.


Lemma wf_one_product_db : wf_db Example.one_product_db.
Proof.
  split; [reflexivity|]. split; [repeat constructor|].
  intros symbol currency exchange. simpl. destruct (same_key _ _ _ _); simpl; lia.
Qed.

Lemma product_zero_emits_nothing_witness :
  wf_db (conn Example.one_product_session)
  /\ (exists s' : session,
        process_table Example.host Example.file "match" Example.one_product_session "BTC_USD"
        = Ok s'
        /\ populate_product_table Example.file "match" "BTC_USD" "BTC" "USD" "Coinbase Pro"
             (insert_product "BTC" "USD" "Bitcoin" "Coinbase Pro" Example.one_product_db)
           = Ok 8
        /\ (exists (symbol currency symbol_name : string) (db1 : database) (ds : dataset)
                   (product_id : Z) (calls : list copy_call),
              unpack2 (split "_" "BTC_USD") = Ok (symbol, currency)
              /\ insert_product_id symbol currency symbol_name "Coinbase Pro"
                   (conn Example.one_product_session) = Ok db1
              /\ h5_getitem Example.file "match" "BTC_USD" = Ok ds
              /\ populate_product_table Example.file "match" "BTC_USD" symbol currency
                   "Coinbase Pro" db1 = Ok product_id
              /\ conn s' = loaded db1 calls
              /\ (rows ds = [] -> product_id = 0 /\ calls = [])
              /\ ("match" ∈ ["match"; "open"; "done"; "change"] ->
                    exists outs : list (list (list value)),
                      calls = bulk_load Example.host "match" <$> outs
                      /\ Forall2 (fun r row => fact_row Example.host product_id "match" r row
                                               /\ row !! 0%nat = Some (VInt product_id))
                           (rows ds) (concat outs))
              /\ (wf_db (conn Example.one_product_session) ->
                    exists r : product_row,
                      select_product symbol currency "Coinbase Pro" db1 = Some r
                      /\ 0 < p_unique_id r
                      /\ product_id = (if 0 <? len (rows ds) then p_unique_id r else 0)
                      /\ (product_id = 0 <-> rows ds = [])
                      /\ (product_id = 0 -> calls = []))))
  /\ (exists s' : session,
        process_table Example.host Example.empty_match_file "match" Example.one_product_session
          "BTC_USD" = Ok s'
        /\ populate_product_table Example.empty_match_file "match" "BTC_USD" "BTC" "USD"
             "Coinbase Pro"
             (insert_product "BTC" "USD" "Bitcoin" "Coinbase Pro" Example.one_product_db)
           = Ok 0
        /\ copied (conn s') = []
        /\ (exists (symbol currency symbol_name : string) (db1 : database) (ds : dataset)
                   (product_id : Z) (calls : list copy_call),
              unpack2 (split "_" "BTC_USD") = Ok (symbol, currency)
              /\ insert_product_id symbol currency symbol_name "Coinbase Pro"
                   (conn Example.one_product_session) = Ok db1
              /\ h5_getitem Example.empty_match_file "match" "BTC_USD" = Ok ds
              /\ populate_product_table Example.empty_match_file "match" "BTC_USD" symbol currency
                   "Coinbase Pro" db1 = Ok product_id
              /\ conn s' = loaded db1 calls
              /\ (rows ds = [] -> product_id = 0 /\ calls = [])
              /\ ("match" ∈ ["match"; "open"; "done"; "change"] ->
                    exists outs : list (list (list value)),
                      calls = bulk_load Example.host "match" <$> outs
                      /\ Forall2 (fun r row => fact_row Example.host product_id "match" r row
                                               /\ row !! 0%nat = Some (VInt product_id))
                           (rows ds) (concat outs))
              /\ (wf_db (conn Example.one_product_session) ->
                    exists r : product_row,
                      select_product symbol currency "Coinbase Pro" db1 = Some r
                      /\ 0 < p_unique_id r
                      /\ product_id = (if 0 <? len (rows ds) then p_unique_id r else 0)
                      /\ (product_id = 0 <-> rows ds = [])
                      /\ (product_id = 0 -> calls = [])))).
Proof.
  split; [exact wf_one_product_db|]. split.
  - eexists. split; [vm_compute; reflexivity|]. split; [vm_compute; reflexivity|].
    apply (product_zero_emits_nothing Example.host Example.file "match" "BTC_USD"
             Example.one_product_session).
    vm_compute. reflexivity.
  - eexists. split; [vm_compute; reflexivity|]. split; [vm_compute; reflexivity|].
    split; [reflexivity|].
    apply (product_zero_emits_nothing Example.host Example.empty_match_file "match" "BTC_USD"
             Example.one_product_session).
    vm_compute. reflexivity.
Defined.


Lemma price_is_the_stored_value_witness :
  "match" ∈ ["match"; "open"; "done"; "change"]
  /\ exists db' : database,
       assemble_data_as_string Example.host Example.file "match" "BTC_USD"
         ("tick_data_" +:+ "match") 1 Example.empty_db = Ok db'
       /\ (forall z : Z, str Example.host (VInt z) = str_int z)
       /\ exists (ds : dataset) (outs : list (list (list value))),
            h5_getitem Example.file "match" "BTC_USD" = Ok ds
            /\ db' = loaded Example.empty_db (bulk_load Example.host "match" <$> outs)
            /\ Forall2
                 (fun rg out =>
                    Forall2
                      (fun r row =>
                         fact_row Example.host 1 "match" r row
                         /\ row !! 3%nat = Some (price r)
                         /\ Forall (fun '(i, proj) =>
                                      row !! i = Some (VFloat (divide (proj r) 100000000)))
                              (scaled_sizes "match"))
                      (slice (rows ds) rg.1 rg.2) out)
                 (ranges (len (rows ds))) outs.
Proof.
  split; [left|]. eexists. split; [vm_compute; reflexivity|].
  apply (price_is_the_stored_value Example.host Example.file "match" "BTC_USD" 1
           Example.empty_db).
  - left.
  - vm_compute. reflexivity.
Defined.


(** C2. The ledger does not keep a file whose name has a backslash from
    being ingested twice. A first run processes the file [a\b.h5] and
    commits: the ledger then holds a filename that ends with that name.
    The lookup of a second run, which starts on what is committed, does
    not find it, since [LIKE] reads the backslash of the name as an
    escape; the second run processes the file again, adds a second row
    to the ledger and loads the rows of the file a second time. *)
Theorem backslash_name_is_ingested_again :
  exists s1 s2 : session,
    main Example.host [("a\b.h5", Ok Example.file, "2018-01-02 00:00:00")] Example.session0
    = Ok s1
    /\ durable s1 = conn s1
    /\ (exists row, row ∈ file_log (durable s1)
                    /\ f_filename row = (hdf_folder +:+ "/") +:+ "a\b.h5")
    /\ select_file_log "a\b.h5" (durable s1) = None
    /\ main Example.host [("a\b.h5", Ok Example.file, "2018-01-03 00:00:00")] (restart s1)
       = Ok s2
    /\ stdout s2 = [Processing "a\b.h5"; Loading "BTC_USD" "match"; TimeTaken]
    /\ f_filename <$> file_log (conn s2)
       = [hdf_folder +:+ "/a\b.h5"; hdf_folder +:+ "/a\b.h5"]
    /\ length (copied (conn s1)) = 1%nat
    /\ length (copied (conn s2)) = 2%nat
    /\ durable s2 = conn s2.
Proof.
  eexists. eexists. split; [vm_compute; reflexivity|].
  split; [reflexivity|].
  split; [eexists; split; [left|reflexivity]|].
  split; [vm_compute; reflexivity|].
  split; [vm_compute; reflexivity|].
  repeat split; vm_compute; reflexivity.
Qed.

(** C7, as the claim states it, fails on a store whose sequence is behind
    the keys of its product table: the insertion of the product takes a
    key that is there and is dropped, the lookup finds no row and
    returns 0, and the two rows of the table are loaded all the same,
    each with the product 0. *)
Lemma stale_sequence_loads_product_zero :
  insert_product_id "BTC" "USD" "Bitcoin" "Coinbase Pro" Example.stale_db
  = Ok (insert_product "BTC" "USD" "Bitcoin" "Coinbase Pro" Example.stale_db)
  /\ product (insert_product "BTC" "USD" "Bitcoin" "Coinbase Pro" Example.stale_db)
     = product Example.stale_db
  /\ select_product "BTC" "USD" "Coinbase Pro"
       (insert_product "BTC" "USD" "Bitcoin" "Coinbase Pro" Example.stale_db) = None
  /\ populate_product_table Example.file "match" "BTC_USD" "BTC" "USD" "Coinbase Pro"
       (insert_product "BTC" "USD" "Bitcoin" "Coinbase Pro" Example.stale_db) = Ok 0
  /\ exists (s' : session) (out : list (list value)),
       process_table Example.host Example.file "match" Example.stale_session "BTC_USD" = Ok s'
       /\ copied (conn s')
          = [{| cc_sql := Example.copy_match; cc_file := csv_text Example.host out |}]
       /\ out = [[VInt 0; VStr "buy"; VStr "2017-07-14 02:40:00"; VInt 150000000; VFloat 1;
                  VStr "maker-1"; VStr nil_uuid];
                 [VInt 0; VStr "sell"; VStr "2017-07-14 02:40:00.500000"; VInt 150250000;
                  VFloat 0.25; VStr "maker-2"; VStr nil_uuid]]
       /\ csv_text Example.host out
          = "0,buy,2017-07-14 02:40:00,150000000,1.0,maker-1,00000000-0000-0000-0000-000000000000"
            +:+ newline +:+
            "0,sell,2017-07-14 02:40:00.500000,150250000,0.25,maker-2,00000000-0000-0000-0000-000000000000".
Proof.
  split; [reflexivity|]. split; [reflexivity|]. split; [reflexivity|].
  split; [vm_compute; reflexivity|].
  eexists. eexists. split; [vm_compute; reflexivity|].
  split; [|split; [reflexivity|vm_compute; reflexivity]].
  vm_compute. reflexivity.
Qed.

(** C3, as the claim states it, fails: the trade stored with the price
    150000000 is loaded with the field 150000000, and not with 1.5, the
    text of 150000000 / 10^8. *)
Lemma price_is_not_divided :
  exists out : list (list value),
    assemble_data_as_string Example.host Example.file "match" "BTC_USD" "tick_data_match" 1
      Example.empty_db
    = Ok (loaded Example.empty_db
            [{| cc_sql := Example.copy_match; cc_file := csv_text Example.host out |}])
    /\ out = [[VInt 1; VStr "buy"; VStr "2017-07-14 02:40:00"; VInt 150000000; VFloat 1;
               VStr "maker-1"; VStr nil_uuid];
              [VInt 1; VStr "sell"; VStr "2017-07-14 02:40:00.500000"; VInt 150250000;
               VFloat 0.25; VStr "maker-2"; VStr nil_uuid]]
    /\ csv_text Example.host out
       = "1,buy,2017-07-14 02:40:00,150000000,1.0,maker-1,00000000-0000-0000-0000-000000000000"
         +:+ newline +:+
         "1,sell,2017-07-14 02:40:00.500000,150250000,0.25,maker-2,00000000-0000-0000-0000-000000000000"
    /\ price Example.trade1 = VInt 150000000
    /\ str Example.host (VFloat (divide 150000000 100000000)) = "1.5"
    /\ ~ Forall2 (fun r row => forall z, price r = VInt z ->
                      row !! 3%nat = Some (VFloat (divide z 100000000)))
          (rows Example.trades) out.
Proof.
  eexists. split; [|split; [reflexivity|]].
  - vm_compute. reflexivity.
  - split; [vm_compute; reflexivity|]. split; [reflexivity|].
    split; [vm_compute; reflexivity|].
    intros H. apply Forall2_cons_1 in H as [H _].
    specialize (H 150000000 eq_refl). discriminate H.
Qed.


(** The further properties, on the examples. *)

Lemma known_match : "match" ∈ known_kinds.
Proof. unfold known_kinds. left. Qed.

Lemma trades_fields : Forall (has_field Example.trades) (layout "match").
Proof.
  change (layout "match")
    with [CProduct; CText "side" side; CTime; CPrice; CScaled "size" size;
          CIdent "maker_order_id" maker_order_id; CIdent "taker_order_id" taker_order_id].
  repeat (apply Forall_cons; split); try apply Forall_nil; simpl; try exact I;
    unfold Example.trades, dtype; repeat constructor.
Qed.

Lemma every_row_is_loaded_once_witness :
  "match" ∈ known_kinds
  /\ exists db' : database,
       assemble_data_as_string Example.host Example.file "match" "BTC_USD"
         ("tick_data_" +:+ "match") 1 Example.empty_db = Ok db'
       /\ db_table_columns !! "match" = Some ("unique_id" :: (column_name <$> layout "match"))
       /\ exists (ds : dataset) (outs : list (list (list value))),
            h5_getitem Example.file "match" "BTC_USD" = Ok ds
            /\ db' = loaded Example.empty_db (bulk_load Example.host "match" <$> outs)
            /\ len outs = chunks (len (rows ds))
            /\ Forall2 (fact_row Example.host 1 "match") (rows ds) (concat outs).
Proof.
  split; [exact known_match|]. eexists. split; [vm_compute; reflexivity|].
  apply (every_row_is_loaded_once Example.host Example.file "match" "BTC_USD" 1
           Example.empty_db).
  - exact known_match.
  - vm_compute. reflexivity.
Defined.

Lemma identifiers_all_or_nil_witness :
  "taker_order_id" ∈ dtype Example.trades
  /\ forallb utf8_valid (taker_order_id <$> slice (rows Example.trades) 0 2) = false
  /\ decoded_or_nil Example.trades "taker_order_id" taker_order_id 0 2
     = Ok (PArray (if forallb utf8_valid (taker_order_id <$> slice (rows Example.trades) 0 2)
                   then VStr <$> (taker_order_id <$> slice (rows Example.trades) 0 2)
                   else full 2 (VStr nil_uuid))).
Proof.
  split; [unfold Example.trades, dtype; repeat constructor|]. split; [reflexivity|].
  apply (identifiers_all_or_nil Example.trades "taker_order_id" taker_order_id 0 2).
  unfold Example.trades, dtype. repeat constructor.
Defined.

Lemma table_is_loaded_iff_readable_witness :
  "match" ∈ known_kinds
  /\ h5_getitem Example.file "match" "BTC_USD" = Ok Example.trades
  /\ Forall (has_field Example.trades) (layout "match")
  /\ let returns :=
       exists db' : database,
         assemble_data_as_string Example.host Example.file "match" "BTC_USD"
           ("tick_data_" +:+ "match") 1 Example.empty_db = Ok db' in
     let refused (e : exn) :=
       exists (db1 : database) (out : list (list value)),
         copy_error Example.host db1 (cc_sql (bulk_load Example.host "match" out))
           (cc_file (bulk_load Example.host "match" out)) = Some e in
     let convertible :=
       Forall (fun r => Forall (converts Example.host r) (layout "match"))
         (rows Example.trades) in
     (forall e, ~ refused e)
     /\ returns
     /\ (returns -> convertible)
     /\ (convertible ->
           returns
           \/ exists e : exn,
                refused e
                /\ assemble_data_as_string Example.host Example.file "match" "BTC_USD"
                     ("tick_data_" +:+ "match") 1 Example.empty_db = Raise e)
     /\ ((forall e, ~ refused e) -> (returns <-> convertible)).
Proof.
  split; [exact known_match|]. split; [reflexivity|]. split; [exact trades_fields|].
  cbv zeta. split; [by intros e (db1 & out & He)|].
  split; [eexists; vm_compute; reflexivity|].
  apply (table_is_loaded_iff_readable Example.host Example.file "match" "BTC_USD"
           Example.trades 1 Example.empty_db).
  - exact known_match.
  - reflexivity.
  - exact trades_fields.
Defined.

Lemma undecodable_side_aborts_witness :
  "match" ∈ known_kinds
  /\ h5_getitem Example.garbled_file "match" "BTC_USD" = Ok Example.garbled
  /\ "side" ∈ dtype Example.garbled
  /\ rows Example.garbled !! 0%nat = Some Example.garbled_trade
  /\ utf8_valid (side Example.garbled_trade) = false
  /\ exists e : exn,
       assemble_data_as_string Example.host Example.garbled_file "match" "BTC_USD"
         ("tick_data_" +:+ "match") 1 Example.empty_db = Raise e
       /\ (Z.of_nat 0 < chunk -> e = UnicodeDecodeError).
Proof.
  split; [exact known_match|]. split; [reflexivity|].
  split; [unfold Example.garbled, dtype; left|].
  split; [reflexivity|]. split; [reflexivity|].
  apply (undecodable_side_aborts Example.host Example.garbled_file "match" "BTC_USD"
           Example.garbled 1 Example.empty_db 0 Example.garbled_trade).
  - exact known_match.
  - reflexivity.
  - unfold Example.garbled, dtype. left.
  - reflexivity.
  - reflexivity.
Defined.

Lemma csv_text_reads_back_witness :
  zip_star [[VInt 1; VInt 2]; [VStr "buy"; VStr "sell"]] <> []
  /\ exists text : string,
       arrays_to_CSV_string Example.host (PArray <$> [[VInt 1; VInt 2]; [VStr "buy"; VStr "sell"]])
       = Ok text
       /\ split "," <$> split "010" text
          = (fmap (str Example.host)) <$> zip_star [[VInt 1; VInt 2]; [VStr "buy"; VStr "sell"]].
Proof.
  split; [discriminate|].
  apply (csv_text_reads_back Example.host [[VInt 1; VInt 2]; [VStr "buy"; VStr "sell"]]).
  - discriminate.
  - repeat constructor.
Defined.

Lemma new_product_round_trip_witness :
  wf_db Example.one_product_db
  /\ occurs "'" "BTC" = false /\ occurs "'" "USD" = false
  /\ occurs "'" "Bitcoin" = false /\ occurs "'" "Coinbase Pro" = false
  /\ select_product "BTC" "USD" "Coinbase Pro" Example.one_product_db = None
  /\ let row := {| p_unique_id := product_seq Example.one_product_db; p_symbol := "BTC";
                   p_currency := "USD"; p_name := "Bitcoin"; p_exchange := "Coinbase Pro" |} in
     exists db' : database,
       insert_product_id "BTC" "USD" "Bitcoin" "Coinbase Pro" Example.one_product_db = Ok db'
       /\ select_product "BTC" "USD" "Coinbase Pro" db' = Some row
       /\ product db' = (product Example.one_product_db ++ [row])%list
       /\ product_seq db' = product_seq Example.one_product_db + 1.
Proof.
  split; [exact wf_one_product_db|]. do 4 (split; [reflexivity|]). split; [reflexivity|].
  apply (new_product_round_trip "BTC" "USD" "Bitcoin" "Coinbase Pro" Example.one_product_db).
  - exact wf_one_product_db.
  - reflexivity.
  - reflexivity.
  - reflexivity.
  - reflexivity.
  - reflexivity.
Defined.









